(** * AI-Travel-Guide: a shallow embedding of the backend

    The development follows the three backend modules:
    - [vector_store.py]: the [FAISSStore] memory (embed, add, search);
    - [langchain_integration.py]: the weather tool and [process_query];
    - [main.py]: token issuance, the authentication dependency and the
      signup / login / profile / chat handlers.

    Python code that mutates objects is written in a state-and-exception
    monad over the mutated object.  The third-party libraries (the sentence
    encoder, the language-model agent, bcrypt, the HMAC of PyJWT, the HTTP
    client) are section variables; the flat L2 index, [list] subscripting,
    the JWT validity rules and the [users] table are modelled concretely. *)

From Stdlib Require Import ZArith QArith Lia Lqa.
From stdpp Require Import base strings list gmap pretty.

Set Warnings "-register-all".

(** ** Python values, exceptions and outcomes *)

(** The PyJWT failures reached by [jwt.decode]; all of them are subclasses
    of [jwt.PyJWTError]. *)
Inductive jwt_error :=
| DecodeError
| InvalidAlgorithmError
| InvalidSignatureError
| InvalidIssuedAtError
| ImmatureSignatureError
| ExpiredSignatureError
| InvalidAudienceError
| InvalidSubjectError
| InvalidJTIError.

Inductive exn :=
| IndexError
| KeyError (key : string)
| TypeError
| ValueError
| AttributeError (name : string)
| AssertionError
| APIError
| ConnectionError
| JSONDecodeError
| NotImplementedError (msg : string)
| PyJWTError (kind : jwt_error)
| HTTPException (status_code : Z) (detail : string).

Inductive outcome (A : Type) :=
| Return (a : A)
| Raise (e : exn).
Arguments Return {A} a.
Arguments Raise {A} e.

(** A computation over a mutable object of type [St]: it yields a value or
    raises, and in both cases leaves the object in some state (what was
    mutated before an exception stays mutated). *)
Definition M (St A : Type) : Type := St -> outcome A * St.

Definition ret {St A} (a : A) : M St A := fun s => (Return a, s).
Definition raise {St A} (e : exn) : M St A := fun s => (Raise e, s).
Definition bind {St A B} (m : M St A) (k : A -> M St B) : M St B :=
  fun s => match m s with
           | (Return a, s') => k a s'
           | (Raise e, s') => (Raise e, s')
           end.
Definition get {St} : M St St := fun s => (Return s, s).
Definition put {St} (s : St) : M St unit := fun _ => (Return tt, s).
Definition lift {St A} (o : outcome A) : M St A := fun s => (o, s).

Declare Scope py_scope.
Delimit Scope py_scope with py.
Notation "x <- m ;; k" := (bind m (fun x => k))
  (at level 100, m at next level, right associativity) : py_scope.
Notation "m ;;; k" := (bind m (fun _ => k))
  (at level 100, right associativity) : py_scope.

(** The exception-only fragment, for code that reads but does not mutate. *)
Definition obind {A B} (o : outcome A) (k : A -> outcome B) : outcome B :=
  match o with
  | Return a => k a
  | Raise e => Raise e
  end.
Notation "x <~ o ;; k" := (obind o (fun x => k))
  (at level 100, o at next level, right associativity) : py_scope.

Local Open Scope py_scope.

(** JSON-like Python values: what the weather payload, the profile
    dictionary and the token claims are made of.  A float carries its
    [str()] rendering. *)
Inductive pyval :=
| PyNone
| PyBool (b : bool)
| PyInt (z : Z)
| PyFloat (rendered : string)
| PyStr (s : string)
| PyList (items : list pyval)
| PyDict (entries : list (string * pyval)).

(** [l[i]] on a Python list: a negative index counts from the end, an
    index outside [-len, len) raises [IndexError]. *)
Definition list_getitem {A} (l : list A) (i : Z) : outcome A :=
  let n := Z.of_nat (length l) in
  let j := if (i <? 0)%Z then (i + n)%Z else i in
  if ((0 <=? j) && (j <? n))%Z
  then match l !! Z.to_nat j with
       | Some x => Return x
       | None => Raise IndexError
       end
  else Raise IndexError.

(** ** The flat L2 index (faiss.IndexFlatL2)

    The index keeps the added vectors in insertion order; the label of a
    vector is its position.  [search] ranks every stored vector by squared
    Euclidean distance to the query and returns exactly [k] labels: the
    nearest first and, when fewer than [k] vectors are stored, the label
    [-1] in the remaining places.  [add] and [search] assert the vector
    dimension, [search] asserts [k > 0].  Vector components are rationals. *)

Definition embedding := list Q.

Module faiss.

Record IndexFlatL2 := mkIndex { d : nat; xb : list embedding }.

Definition ntotal (ix : IndexFlatL2) : nat := length (xb ix).

Definition add (ix : IndexFlatL2) (x : embedding) : outcome IndexFlatL2 :=
  if decide (length x = d ix)
  then Return (mkIndex (d ix) (xb ix ++ [x]))
  else Raise AssertionError.

Fixpoint l2sqr (x y : embedding) : Q :=
  match x, y with
  | a :: x', b :: y' => ((a - b) * (a - b) + l2sqr x' y')%Q
  | _, _ => 0%Q
  end.

(** Stable insertion of a scored label: among equal distances the
    label inserted earlier stays first. *)
Fixpoint rank_insert (p : Q * nat) (l : list (Q * nat)) : list (Q * nat) :=
  match l with
  | [] => [p]
  | q :: l' =>
      if Qle_bool (fst q) (fst p) then q :: rank_insert p l' else p :: q :: l'
  end.

Definition rank (l : list (Q * nat)) : list (Q * nat) :=
  fold_left (fun acc p => rank_insert p acc) l [].

Definition scored (x : embedding) (ys : list embedding) : list (Q * nat) :=
  imap (fun i y => (l2sqr x y, i)) ys.

Definition search (ix : IndexFlatL2) (x : embedding) (k : Z) : outcome (list Z) :=
  if decide (length x = d ix)
  then if (0 <? k)%Z
       then let hits := take (Z.to_nat k) (rank (scored x (xb ix))) in
            Return (((fun p => Z.of_nat (snd p)) <$> hits)
                    ++ replicate (Z.to_nat k - length hits) (-1)%Z)
       else Raise AssertionError
  else Raise AssertionError.

End faiss.

(** ** vector_store.py *)

Record FAISSStore := mkStore {
  embedding_dim : nat;
  index : faiss.IndexFlatL2;
  texts : list string
}.

(** [FAISSStore(embedding_dim)]. *)
Definition FAISSStore_init (embedding_dim : nat) : FAISSStore :=
  mkStore embedding_dim (faiss.mkIndex embedding_dim []) [].

(** The module-level instance, with the default dimension. *)
Definition faiss_store : FAISSStore := FAISSStore_init 384.

(** [[self.texts[i] for i in indices[0] if i < len(self.texts)]] *)
Fixpoint gather (texts : list string) (indices : list Z) : outcome (list string) :=
  match indices with
  | [] => Return []
  | i :: rest =>
      if (i <? Z.of_nat (length texts))%Z
      then t <~ list_getitem texts i ;;
           ts <~ gather texts rest ;;
           Return (t :: ts)
      else gather texts rest
  end.

Section vector_store.
(** [self.model.encode([text])]: the embedding row of one sentence. *)
Variable encode : string -> embedding.

Definition add_text (text : string) : M FAISSStore unit :=
  self <- get ;;
  let embedding_np := encode text in
  index' <- lift (faiss.add (index self) embedding_np) ;;
  put (mkStore (embedding_dim self) index' (texts self ++ [text])).

Definition search (query : string) (top_k : Z) : M FAISSStore (list string) :=
  self <- get ;;
  let query_np := encode query in
  indices <- lift (faiss.search (index self) query_np top_k) ;;
  results <- lift (gather (texts self) indices) ;;
  ret results.

End vector_store.

(** ** langchain_integration.py *)

(** What [requests.get] hands back: the status line and what
    [response.json()] gives (a parsed body, or the decoding failure). *)
Record Response := mkResponse {
  status_code : Z;
  json : outcome pyval
}.

Fixpoint dict_get (entries : list (string * pyval)) (key : string) : option pyval :=
  match entries with
  | [] => None
  | (k, v) :: rest => if decide (k = key) then Some v else dict_get rest key
  end.

(** [v[key]] for a string key: only a dictionary can be subscripted so. *)
Definition getitem_key (v : pyval) (key : string) : outcome pyval :=
  match v with
  | PyDict entries =>
      match dict_get entries key with
      | Some x => Return x
      | None => Raise (KeyError key)
      end
  | _ => Raise TypeError
  end.

(** [v[i]] for an integer: a list or string position; a dictionary of
    string keys has no integer key. *)
Definition getitem_idx (v : pyval) (i : Z) : outcome pyval :=
  match v with
  | PyList items => list_getitem items i
  | PyStr s =>
      c <~ list_getitem (String.list_ascii_of_string s) i ;;
      Return (PyStr (String c EmptyString))
  | PyDict _ => Raise (KeyError (pretty i))
  | _ => Raise TypeError
  end.

Section python_str.
(** [repr()] of a list or a dictionary. *)
Variable py_repr : pyval -> string.

(** [str(v)], which is what an f-string placeholder [{v}] inserts. *)
Definition py_str (v : pyval) : string :=
  match v with
  | PyNone => "None"
  | PyBool true => "True"
  | PyBool false => "False"
  | PyInt z => pretty z
  | PyFloat rendered => rendered
  | PyStr s => s
  | PyList _ | PyDict _ => py_repr v
  end.

End python_str.

(** [os.getenv] gives [None] for an unset variable; an f-string prints it
    as [None]. *)
Definition str_of_env (v : option string) : string :=
  match v with
  | Some s => s
  | None => "None"
  end.

Section langchain_integration.
Variable encode : string -> embedding.
Variable py_repr : pyval -> string.
Variable getenv : string -> option string.
(** [requests.get(url)]: a response, or the client's own failure. *)
Variable requests_get : string -> outcome Response.
(** [agent.run(prompt)]: the agent's final answer. *)
Variable agent_run : string -> string.

Definition OpenWeatherTool_url (query : string) : string :=
  let api_key := getenv "OPENWEATHER_KEY" in
  "http://api.openweathermap.org/data/2.5/weather?q=" +:+ query
  +:+ "&appid=" +:+ str_of_env api_key +:+ "&units=metric".

Definition OpenWeatherTool_run (query : string) : outcome string :=
  let url := OpenWeatherTool_url query in
  response <~ requests_get url ;;
  if decide (status_code response = 200%Z)
  then data <~ json response ;;
       weather <~ getitem_key data "weather" ;;
       weather0 <~ getitem_idx weather 0 ;;
       weather_desc <~ getitem_key weather0 "description" ;;
       main <~ getitem_key data "main" ;;
       temp <~ getitem_key main "temp" ;;
       Return ("In " +:+ query +:+ ", the weather is '" +:+ py_str py_repr weather_desc
               +:+ "' with a temperature of " +:+ py_str py_repr temp +:+ "Â°C.")
  else Return ("Unable to fetch weather data for " +:+ query +:+ ".").

Definition OpenWeatherTool_arun (query : string) : outcome string :=
  Raise (NotImplementedError "Asynchronous run not implemented").

Definition SerpApiTool_run (query : string) : outcome string :=
  Return ("Simulated travel data for '" +:+ query +:+ "'.").

Definition SerpApiTool_arun (query : string) : outcome string :=
  Raise (NotImplementedError "Asynchronous run not implemented").

(** [user_profile.get(key)] *)
Definition profile_get (user_profile : gmap string pyval) (key : string) : pyval :=
  default PyNone (user_profile !! key).

Definition profile_str (user_profile : gmap string pyval) : string :=
  "Email: " +:+ py_str py_repr (profile_get user_profile "email") +:+ ", "
  +:+ "Full Name: " +:+ py_str py_repr (profile_get user_profile "full_name") +:+ ", "
  +:+ "Preferences: " +:+ py_str py_repr (profile_get user_profile "travel_preferences").

Definition faiss_context (faiss_results : list string) : string :=
  match faiss_results with
  | [] => ""
  | r :: _ => "Relevant historical data: " +:+ r
  end.

Definition newline : string := String (Ascii.ascii_of_nat 10) EmptyString.

Definition pre_prompt (user_profile : gmap string pyval) (query : string)
    (faiss_results : list string) : string :=
  "User Profile: " +:+ profile_str user_profile +:+ newline
  +:+ "User Query: " +:+ query +:+ newline
  +:+ faiss_context faiss_results +:+ newline
  +:+ "Using the above information, fetch relevant weather data and travel details. "
  +:+ "Provide a detailed travel recommendation with citations.".

Definition process_query (query : string) (user_profile : gmap string pyval)
    : M FAISSStore string :=
  faiss_results <- search encode query 1 ;;
  let response := agent_run (pre_prompt user_profile query faiss_results) in
  add_text encode response ;;;
  ret response.

End langchain_integration.

(** ** PyJWT

    A token string is either not a well-formed JWS, or a JWS with its
    header algorithm, its claims and its signature.  [decode] checks, in
    this order, the algorithm against the allowed ones, the signature
    against the key, and then the registered claims: [iat] and [nbf] must be
    numbers not in the future, [exp] a number in the future, [aud] absent or
    empty (the caller names no audience), [sub] and [jti] strings.  Each
    failure is a [PyJWTError].  Times are whole seconds. *)

Module jwt.

Inductive token :=
| Garbage (text : string)
| Signed (alg : string) (payload : gmap string pyval) (signature : string).

(** [bool(v)], as [not payload["aud"]] takes it. *)
Definition truthy (v : pyval) : bool :=
  match v with
  | PyNone => false
  | PyBool b => b
  | PyInt z => negb (z =? 0)%Z
  | PyFloat rendered => negb (String.eqb rendered "0.0" || String.eqb rendered "-0.0")
  | PyStr s => negb (String.eqb s "")
  | PyList items => match items with [] => false | _ :: _ => true end
  | PyDict entries => match entries with [] => false | _ :: _ => true end
  end.

(** [isinstance(v, str)] *)
Definition is_str (v : pyval) : bool :=
  match v with
  | PyStr _ => true
  | _ => false
  end.

Section hmac.
(** The keyed digest of a header algorithm and claims. *)
Variable hmac : string -> string * gmap string pyval -> string.
(** [int(v)] for a claim that is not an integer already (a float such as
    [2800.5], a string such as ["2800"]): the number, or [None] when [int]
    refuses the value. *)
Variable int_conv : pyval -> option Z.

Definition encode (payload : gmap string pyval) (key algorithm : string) : token :=
  Signed algorithm payload (hmac key (algorithm, payload)).

Definition int_of (v : pyval) : option Z :=
  match v with
  | PyInt z => Some z
  | PyBool b => Some (if b then 1 else 0)%Z
  | _ => int_conv v
  end.

Definition validate_iat (payload : gmap string pyval) (now : Z) : outcome unit :=
  match payload !! "iat" with
  | None => Return tt
  | Some v =>
      match int_of v with
      | None => Raise (PyJWTError InvalidIssuedAtError)
      | Some iat =>
          if (now <? iat)%Z then Raise (PyJWTError ImmatureSignatureError) else Return tt
      end
  end.

Definition validate_nbf (payload : gmap string pyval) (now : Z) : outcome unit :=
  match payload !! "nbf" with
  | None => Return tt
  | Some v =>
      match int_of v with
      | None => Raise (PyJWTError DecodeError)
      | Some nbf =>
          if (now <? nbf)%Z then Raise (PyJWTError ImmatureSignatureError) else Return tt
      end
  end.

Definition validate_exp (payload : gmap string pyval) (now : Z) : outcome unit :=
  match payload !! "exp" with
  | None => Return tt
  | Some v =>
      match int_of v with
      | None => Raise (PyJWTError DecodeError)
      | Some exp =>
          if (exp <=? now)%Z then Raise (PyJWTError ExpiredSignatureError) else Return tt
      end
  end.

Definition validate_aud (payload : gmap string pyval) : outcome unit :=
  match payload !! "aud" with
  | None => Return tt
  | Some v => if truthy v then Raise (PyJWTError InvalidAudienceError) else Return tt
  end.

Definition validate_sub (payload : gmap string pyval) : outcome unit :=
  match payload !! "sub" with
  | None => Return tt
  | Some v => if is_str v then Return tt else Raise (PyJWTError InvalidSubjectError)
  end.

Definition validate_jti (payload : gmap string pyval) : outcome unit :=
  match payload !! "jti" with
  | None => Return tt
  | Some v => if is_str v then Return tt else Raise (PyJWTError InvalidJTIError)
  end.

Definition validate_claims (payload : gmap string pyval) (now : Z) : outcome unit :=
  _ <~ validate_iat payload now ;;
  _ <~ validate_nbf payload now ;;
  _ <~ validate_exp payload now ;;
  _ <~ validate_aud payload ;;
  _ <~ validate_sub payload ;;
  validate_jti payload.

Definition decode (tok : token) (key : string) (algorithms : list string) (now : Z)
    : outcome (gmap string pyval) :=
  match tok with
  | Garbage _ => Raise (PyJWTError DecodeError)
  | Signed alg payload signature =>
      if decide (alg ∈ algorithms)
      then if decide (signature = hmac key (alg, payload))
           then _ <~ validate_claims payload now ;; Return payload
           else Raise (PyJWTError InvalidSignatureError)
      else Raise (PyJWTError InvalidAlgorithmError)
  end.

End hmac.
End jwt.

(** ** main.py *)

Definition ALGORITHM : string := "HS256".
Definition ACCESS_TOKEN_EXPIRE_MINUTES : Z := 30.

(** [timedelta(minutes=m)], in seconds. *)
Definition timedelta_minutes (m : Z) : Z := (60 * m)%Z.

(** A row of the [users] table. *)
Module User.
Record t := mk {
  id : string;
  email : string;
  hashed_password : string;
  full_name : option string;
  travel_preferences : list (string * pyval)
}.
End User.

Module UserSignup.
Record t := mk {
  email : string;
  password : string;
  full_name : option string
}.
End UserSignup.

Module UserProfile.
Record t := mk {
  id : option string;
  email : string;
  full_name : option string;
  travel_preferences : list (string * pyval)
}.
End UserProfile.

Module OAuth2PasswordRequestForm.
Record t := mk {
  username : string;
  password : string
}.
End OAuth2PasswordRequestForm.

Module Token.
Record t := mk {
  access_token : jwt.token;
  token_type : string
}.
End Token.

Module ChatQuery.
Record t := mk { query : string }.
End ChatQuery.

Module ChatResponse.
Record t := mk { response : string }.
End ChatResponse.

(** What [execute()] returns: the rows.  The result has no [error]
    attribute, so reading [response.error] raises [AttributeError]. *)
Module APIResponse.
Record t := mk {
  data : list User.t
}.
Definition error (response : t) : outcome (option string) :=
  Raise (AttributeError "error").
End APIResponse.

(** Everything a request handler reads or mutates: the hosted [users]
    table, whether that table currently refuses writes, the shared memory
    store, the clock ([datetime.utcnow()], in seconds) and the salts
    [bcrypt.gensalt()] will draw. *)
Record world := mkWorld {
  users : list User.t;
  writes_refused : bool;
  memory : FAISSStore;
  utcnow : Z;
  salts : list string
}.

Definition with_users (w : world) (us : list User.t) : world :=
  mkWorld us (writes_refused w) (memory w) (utcnow w) (salts w).

Definition with_memory (w : world) (m : FAISSStore) : world :=
  mkWorld (users w) (writes_refused w) m (utcnow w) (salts w).

Definition with_salts (w : world) (ss : list string) : world :=
  mkWorld (users w) (writes_refused w) (memory w) (utcnow w) ss.

(** Run a computation on the shared memory store of the process. *)
Definition on_memory {A} (m : M FAISSStore A) : M world A :=
  fun w => let (r, mem') := m (memory w) in (r, with_memory w mem').

(** [supabase.table("users").select("*").eq("email", v).execute()] *)
Definition users_select_eq_email (v : string) : M world APIResponse.t :=
  w <- get ;;
  ret (APIResponse.mk (filter (fun u => User.email u = v) (users w))).

Definition set_profile (full_name : option string)
    (travel_preferences : list (string * pyval)) (u : User.t) : User.t :=
  User.mk (User.id u) (User.email u) (User.hashed_password u)
          full_name travel_preferences.

(** [supabase.table("users").update({...}).eq("email", v).execute()]; a
    write the table refuses raises [APIError]. *)
Definition users_update_eq_email (full_name : option string)
    (travel_preferences : list (string * pyval)) (v : string) : M world APIResponse.t :=
  w <- get ;;
  if writes_refused w
  then raise APIError
  else
    let change u :=
      if decide (User.email u = v) then set_profile full_name travel_preferences u else u in
    let us := change <$> users w in
    put (with_users w us) ;;;
    ret (APIResponse.mk (filter (fun u => User.email u = v) us)).

Definition opt_str (o : option string) : pyval :=
  match o with
  | Some s => PyStr s
  | None => PyNone
  end.

Definition credentials_exception : exn :=
  HTTPException 401 "Could not validate credentials".

Section main.
Variable encode : string -> embedding.
Variable py_repr : pyval -> string.
Variable agent_run : string -> string.
(** [bcrypt.hashpw(password, salt)] and [bcrypt.checkpw(password, hash)];
    either may raise (bcrypt raises [ValueError] for a password of more than
    72 bytes). *)
Variable hashpw : string -> string -> outcome string.
Variable checkpw : string -> string -> outcome bool.
Variable hmac : string -> string * gmap string pyval -> string.
Variable int_conv : pyval -> option Z.
(** The signing secret of the process configuration. *)
Variable SECRET_KEY : string.
(** The default of the [id] column, from the rows already present. *)
Variable gen_id : list User.t -> string.

(** [supabase.table("users").insert(user_data).execute()]; a write the
    table refuses raises [APIError]. *)
Definition users_insert (email hashed_password : string) (full_name : option string)
    (travel_preferences : list (string * pyval)) : M world APIResponse.t :=
  w <- get ;;
  if writes_refused w
  then raise APIError
  else
    let row := User.mk (gen_id (users w)) email hashed_password
                       full_name travel_preferences in
    put (with_users w (users w ++ [row])) ;;;
    ret (APIResponse.mk [row]).

Definition gensalt : M world string :=
  w <- get ;;
  match salts w with
  | [] => ret ""
  | s :: rest => put (with_salts w rest) ;;; ret s
  end.

Definition get_password_hash (password : string) : M world string :=
  salt <- gensalt ;;
  lift (hashpw password salt).

Definition verify_password (plain_password hashed_password : string) : outcome bool :=
  checkpw plain_password hashed_password.

Definition create_access_token (data : gmap string pyval) (expires_delta : option Z)
    : M world jwt.token :=
  w <- get ;;
  let to_encode := data in
  let delta :=
    match expires_delta with
    | Some dl => if decide (dl = 0%Z)
                 then timedelta_minutes ACCESS_TOKEN_EXPIRE_MINUTES else dl
    | None => timedelta_minutes ACCESS_TOKEN_EXPIRE_MINUTES
    end in
  let expire := (utcnow w + delta)%Z in
  let to_encode := <["exp" := PyInt expire]> to_encode in
  ret (jwt.encode hmac to_encode SECRET_KEY ALGORITHM).

Definition get_current_user (token : jwt.token) : M world User.t :=
  w <- get ;;
  match jwt.decode hmac int_conv token SECRET_KEY [ALGORITHM] (utcnow w) with
  | Raise (PyJWTError _) => raise credentials_exception
  | Raise e => raise e
  | Return payload =>
      match default PyNone (payload !! "sub") with
      | PyNone => raise credentials_exception
      | email =>
          result <- users_select_eq_email (py_str py_repr email) ;;
          match APIResponse.data result with
          | [] => raise credentials_exception
          | u :: _ => ret u
          end
      end
  end.

Definition signup (user : UserSignup.t) : M world User.t :=
  result <- users_select_eq_email (UserSignup.email user) ;;
  match APIResponse.data result with
  | _ :: _ => raise (HTTPException 400 "Email already registered")
  | [] =>
      hashed_password <- get_password_hash (UserSignup.password user) ;;
      response <- users_insert (UserSignup.email user) hashed_password
                               (UserSignup.full_name user) [] ;;
      error <- lift (APIResponse.error response) ;;
      match error with
      | Some _ => raise (HTTPException 500 "User could not be created")
      | None => lift (list_getitem (APIResponse.data response) 0)
      end
  end.

Definition login (form_data : OAuth2PasswordRequestForm.t) : M world Token.t :=
  result <- users_select_eq_email (OAuth2PasswordRequestForm.username form_data) ;;
  match APIResponse.data result with
  | [] => raise (HTTPException 400 "Incorrect email or password")
  | user :: _ =>
      verified <- lift (verify_password (OAuth2PasswordRequestForm.password form_data)
                                        (User.hashed_password user)) ;;
      if verified
      then
        let access_token_expires := timedelta_minutes ACCESS_TOKEN_EXPIRE_MINUTES in
        access_token <- create_access_token {["sub" := PyStr (User.email user)]}
                                            (Some access_token_expires) ;;
        ret (Token.mk access_token "bearer")
      else raise (HTTPException 400 "Incorrect email or password")
  end.

Definition read_profile (token : jwt.token) : M world User.t :=
  current_user <- get_current_user token ;;
  ret current_user.

Definition update_profile (updated_profile : UserProfile.t) (token : jwt.token)
    : M world User.t :=
  current_user <- get_current_user token ;;
  response <- users_update_eq_email (UserProfile.full_name updated_profile)
                (UserProfile.travel_preferences updated_profile)
                (User.email current_user) ;;
  error <- lift (APIResponse.error response) ;;
  match error with
  | Some _ => raise (HTTPException 500 "Profile update failed")
  | None =>
      updated <- users_select_eq_email (User.email current_user) ;;
      lift (list_getitem (APIResponse.data updated) 0)
  end.

Definition chat (query_data : ChatQuery.t) (token : jwt.token) : M world ChatResponse.t :=
  current_user <- get_current_user token ;;
  let query := ChatQuery.query query_data in
  if decide (query = "")
  then raise (HTTPException 400 "Query is required.")
  else
    let user_profile : gmap string pyval :=
      {[ "email" := PyStr (User.email current_user);
         "full_name" := opt_str (User.full_name current_user);
         "travel_preferences" := PyDict (User.travel_preferences current_user) ]} in
    final_response <- on_memory (process_query encode py_repr agent_run query user_profile) ;;
    ret (ChatResponse.mk final_response).

End main.

(** The status a client sees: 200 for a returned value, the status of an
    [HTTPException], 500 for any other uncaught exception. *)
Definition http_status {A} (r : outcome A) : Z :=
  match r with
  | Return _ => 200
  | Raise (HTTPException status_code _) => status_code
  | Raise _ => 500
  end.

(** ** Call sequences on the memory store *)

(** A caller of the store issues [add_text] and [search] calls in some
    order; a call that raises leaves the store as the exception found it
    and the caller goes on with the next call. *)
Inductive call :=
| Add (text : string)
| Search (query : string) (top_k : Z).

Definition is_add (c : call) : bool :=
  match c with
  | Add _ => true
  | Search _ _ => false
  end.

Definition added_text (c : call) : list string :=
  match c with
  | Add t => [t]
  | Search _ _ => []
  end.

Fixpoint count_adds (cs : list call) : nat :=
  match cs with
  | [] => 0
  | c :: rest => (if is_add c then 1 else 0) + count_adds rest
  end.

Definition run_call (encode : string -> embedding) (c : call) (s : FAISSStore) : FAISSStore :=
  match c with
  | Add t => snd (add_text encode t s)
  | Search q k => snd (search encode q k s)
  end.

Definition run_calls (encode : string -> embedding) (cs : list call) (s : FAISSStore)
    : FAISSStore :=
  fold_left (fun s c => run_call encode c s) cs s.

(** Successive [process_query] calls on the shared store, each with its
    query and profile; a call that raises leaves the store as it found it. *)
Definition run_queries (encode : string -> embedding) (py_repr : pyval -> string)
    (agent_run : string -> string) (queries : list (string * gmap string pyval))
    (s : FAISSStore) : FAISSStore :=
  fold_left (fun s qp => snd (process_query encode py_repr agent_run qp.1 qp.2 s))
            queries s.

(** The index and the text list agree: as many vectors as texts, every
    vector of the configured dimension. *)
Definition lockstep (s : FAISSStore) : Prop :=
  faiss.ntotal (index s) = length (texts s)
  /\ faiss.d (index s) = embedding_dim s
  /\ Forall (fun v : embedding => length v = embedding_dim s) (faiss.xb (index s)).

(** [sub] occurs in [s]. *)
Definition contains (s sub : string) : Prop :=
  exists before after, s = before +:+ sub +:+ after.

(** Every vector of the index is the embedding of the text stored at the
    same position. *)
Definition embeds (encode : string -> embedding) (s : FAISSStore) : Prop :=
  faiss.xb (index s) = encode <$> texts s.

(** No two rows of the [users] table carry the same email. *)
Definition emails_unique (w : world) : Prop :=
  NoDup (User.email <$> users w).

(** ** A sample environment

    Small stand-ins for the external libraries, used to run the model on
    concrete inputs: a two-dimensional encoder, an agent with a fixed
    answer, a password hash and a digest that hide nothing. *)
Module sample.

Definition encode (text : string) : embedding :=
  [inject_Z (Z.of_nat (String.length text)); 1%Q].

Definition py_repr (v : pyval) : string := "{...}".

Definition agent_run (prompt : string) : string := "Pack an umbrella.".

Definition hashpw (password salt : string) : outcome string :=
  if 72 <? String.length password then Raise ValueError else Return password.

Definition checkpw (password hashed : string) : outcome bool :=
  if 72 <? String.length password
  then Raise ValueError
  else Return (String.eqb password hashed).

(** A password of 73 bytes. *)
Definition long_password : string :=
  "ppppppppppppppppppppppppppppppppppppppppppppppppppppppppppppppppppppppppp".

Definition int_conv (v : pyval) : option Z :=
  match v with
  | PyStr "2800" | PyFloat "2800.5" => Some 2800%Z
  | _ => None
  end.

Definition hmac (key : string) (signed : string * gmap string pyval) : string :=
  key +:+ "." +:+ signed.1.

Definition SECRET_KEY : string := "secret".

Definition gen_id (rows : list User.t) : string := pretty (length rows).

Definition getenv (name : string) : option string := Some "key".

Definition requests_get (status : Z) (body : outcome pyval) (url : string)
    : outcome Response :=
  Return (mkResponse status body).

Definition weather_entries : list (string * pyval) :=
  [("weather", PyList [PyDict [("id", PyInt 500); ("description", PyStr "light rain")]]);
   ("main", PyDict [("temp", PyFloat "15.3"); ("humidity", PyInt 81)])].

Definition alice : User.t :=
  User.mk "0" "a@x.com" "pw" (Some "A") [].

Definition bob : User.t :=
  User.mk "1" "b@x.com" "hunter2" None [].

Definition w0 : world :=
  mkWorld [alice; bob] false (FAISSStore_init 2) 1000 ["s1"; "s2"].

(** The same world after the memory store received one text. *)
Definition w1 : world :=
  mkWorld [alice; bob] false
    (run_calls encode [Add "Visit the Louvre."] (FAISSStore_init 2)) 1000 ["s1"; "s2"].

(** A token for [alice], valid until time 2800. *)
Definition alice_token : jwt.token :=
  jwt.encode hmac {[ "sub" := PyStr "a@x.com"; "exp" := PyInt 2800 ]} SECRET_KEY ALGORITHM.

End sample.

(** * Properties *)

Set Default Proof Using "Type".

(** ** Python list subscripting *)

Lemma list_getitem_nil {A} (i : Z) : list_getitem (@nil A) i = Raise IndexError.
Proof.
  unfold list_getitem; simpl.
  destruct (i <? 0)%Z; destruct (_ && _); reflexivity.
Qed.

Lemma list_getitem_nonneg {A} (l : list A) (i : nat) (x : A) :
  l !! i = Some x -> list_getitem l (Z.of_nat i) = Return x.
Proof.
  intros Hx. pose proof (lookup_lt_Some _ _ _ Hx) as Hlt.
  unfold list_getitem.
  destruct (Z.of_nat i <? 0)%Z eqn:Hneg; [apply Z.ltb_lt in Hneg; lia |].
  replace ((0 <=? Z.of_nat i)%Z && (Z.of_nat i <? Z.of_nat (length l))%Z) with true.
  - rewrite Nat2Z.id, Hx. reflexivity.
  - symmetry. apply andb_true_iff. split; [apply Z.leb_le | apply Z.ltb_lt]; lia.
Qed.

Lemma list_getitem_minus_one {A} (l : list A) (x : A) :
  list_getitem (l ++ [x]) (-1) = Return x.
Proof.
  unfold list_getitem. rewrite length_app. simpl length.
  change (-1 <? 0)%Z with true. cbv iota.
  replace (-1 + Z.of_nat (length l + 1))%Z with (Z.of_nat (length l)) by lia.
  replace ((0 <=? Z.of_nat (length l))%Z
           && (Z.of_nat (length l) <? Z.of_nat (length l + 1))%Z) with true.
  - rewrite Nat2Z.id. rewrite lookup_app_r by lia.
    rewrite Nat.sub_diag. reflexivity.
  - symmetry. apply andb_true_iff. split; [apply Z.leb_le | apply Z.ltb_lt]; lia.
Qed.

Lemma list_getitem_elem {A} (l : list A) (i : Z) (x : A) :
  list_getitem l i = Return x -> x ∈ l.
Proof.
  unfold list_getitem. intros H.
  destruct (_ && _); [| discriminate].
  destruct (l !! _) eqn:Hl; [| discriminate].
  injection H as <-. eapply list_elem_of_lookup_2; eauto.
Qed.

(** ** The comprehension of [search] *)

Lemma gather_length (ts : list string) (indices : list Z) (rs : list string) :
  gather ts indices = Return rs -> length rs <= length indices.
Proof.
  revert rs. induction indices as [| i rest IH]; intros rs H; simpl in H.
  - injection H as <-. simpl. lia.
  - destruct (i <? _)%Z.
    + destruct (list_getitem ts i) as [t |]; simpl in H; [| discriminate].
      destruct (gather ts rest) as [ts' |]; simpl in H; [| discriminate].
      injection H as <-. specialize (IH ts' eq_refl). simpl. lia.
    + specialize (IH rs H). simpl. lia.
Qed.

Lemma gather_elem (ts : list string) (indices : list Z) (rs : list string) :
  gather ts indices = Return rs -> Forall (fun r => r ∈ ts) rs.
Proof.
  revert rs. induction indices as [| i rest IH]; intros rs H; simpl in H.
  - injection H as <-. constructor.
  - destruct (i <? _)%Z; [| auto].
    destruct (list_getitem ts i) as [t |] eqn:Ht; simpl in H; [| discriminate].
    destruct (gather ts rest) as [ts' |]; simpl in H; [| discriminate].
    injection H as <-. constructor; [eapply list_getitem_elem; eauto | auto].
Qed.

Lemma gather_padding (ts : list string) (t : string) (n : nat) :
  gather (ts ++ [t]) (replicate n (-1)%Z) = Return (replicate n t).
Proof.
  induction n as [| n IH]; simpl; [reflexivity |].
  replace (-1 <? Z.of_nat (length (ts ++ [t])))%Z with true
    by (symmetry; apply Z.ltb_lt; lia).
  rewrite list_getitem_minus_one. simpl. rewrite IH. reflexivity.
Qed.

(** ** The flat index *)

Lemma rank_insert_perm (p : Q * nat) (l : list (Q * nat)) :
  faiss.rank_insert p l ≡ₚ p :: l.
Proof.
  induction l as [| q l IH]; simpl; [reflexivity |].
  destruct (Qle_bool _ _); [| reflexivity].
  rewrite IH. apply Permutation_swap.
Qed.

Lemma rank_perm (l : list (Q * nat)) : faiss.rank l ≡ₚ l.
Proof.
  unfold faiss.rank.
  enough (forall acc, fold_left (fun acc p => faiss.rank_insert p acc) l acc ≡ₚ acc ++ l)
    as H by (rewrite H; reflexivity).
  induction l as [| p l IH]; intros acc; simpl.
  - rewrite app_nil_r. reflexivity.
  - rewrite IH, rank_insert_perm. rewrite (Permutation_middle acc l p). reflexivity.
Qed.

Lemma scored_length (x : embedding) (ys : list embedding) :
  length (faiss.scored x ys) = length ys.
Proof. unfold faiss.scored. apply length_imap. Qed.

Lemma scored_label (x : embedding) (ys : list embedding) (p : Q * nat) :
  p ∈ faiss.scored x ys -> snd p < length ys.
Proof.
  unfold faiss.scored. intros H.
  apply list_elem_of_lookup in H as [i Hi].
  rewrite list_lookup_imap in Hi.
  destruct (ys !! i) eqn:Hy; simpl in Hi; [| discriminate].
  injection Hi as <-. simpl. eapply lookup_lt_Some; eauto.
Qed.

Lemma rank_scored_label (x : embedding) (ys : list embedding) (p : Q * nat) :
  p ∈ faiss.rank (faiss.scored x ys) -> snd p < length ys.
Proof. rewrite rank_perm. apply scored_label. Qed.

(** The labels of a search: exactly [k] of them, each the position of a
    stored vector or [-1]. *)
Lemma faiss_search_labels (ix : faiss.IndexFlatL2) (x : embedding) (k : Z) (labels : list Z) :
  faiss.search ix x k = Return labels ->
  length labels = Z.to_nat k
  /\ Forall (fun l => l = (-1)%Z \/ (0 <= l < Z.of_nat (faiss.ntotal ix))%Z) labels.
Proof.
  unfold faiss.search. intros H.
  destruct (decide _); [| discriminate].
  destruct (0 <? k)%Z; [| discriminate].
  injection H as <-. split.
  - rewrite length_app, length_fmap, length_replicate.
    pose proof (length_take_le (faiss.rank (faiss.scored x (faiss.xb ix))) (Z.to_nat k)).
    rewrite length_take. lia.
  - apply Forall_app. split.
    + apply Forall_fmap. apply Forall_forall. intros p Hp. right. simpl.
      apply elem_of_take in Hp as (i & Hp & _).
      apply list_elem_of_lookup_2 in Hp. apply rank_scored_label in Hp.
      unfold faiss.ntotal. lia.
    + apply Forall_replicate. left. reflexivity.
Qed.

(** ** The memory store *)

Section store_properties.
Variable encode : string -> embedding.


Lemma search_unchanged (q : string) (k : Z) (s : FAISSStore) :
  snd (search encode q k s) = s.
Proof.
  unfold search, bind, get, lift, ret. simpl.
  destruct (faiss.search _ _ _); [| reflexivity].
  destruct (gather _ _); reflexivity.
Qed.

Lemma add_text_ok (t : string) (s : FAISSStore) :
  length (encode t) = faiss.d (index s) ->
  add_text encode t s =
    (Return tt,
     mkStore (embedding_dim s)
             (faiss.mkIndex (faiss.d (index s)) (faiss.xb (index s) ++ [encode t]))
             (texts s ++ [t])).
Proof.
  intros Hd. unfold add_text, bind, get, lift, put, faiss.add. simpl.
  destruct (decide _); [reflexivity | contradiction].
Qed.

Lemma add_text_rejected (t : string) (s : FAISSStore) :
  length (encode t) <> faiss.d (index s) ->
  add_text encode t s = (Raise AssertionError, s).
Proof.
  intros Hd. unfold add_text, bind, get, lift, put, faiss.add. simpl.
  destruct (decide _); [contradiction | reflexivity].
Qed.

Lemma search_result (q : string) (k : Z) (s : FAISSStore) :
  search encode q k s =
    (labels <~ faiss.search (index s) (encode q) k ;; gather (texts s) labels, s).
Proof.
  unfold search, bind, get, lift, ret. simpl.
  destruct (faiss.search _ _ _); simpl; [| reflexivity].
  destruct (gather _ _); reflexivity.
Qed.

Lemma search_new_store (dim : nat) (q : string) (k : Z) :
  length (encode q) = dim ->
  (1 <= k)%Z ->
  search encode q k (FAISSStore_init dim) = (Raise IndexError, FAISSStore_init dim).
Proof.
  intros Hd Hk. rewrite search_result. f_equal.
  unfold faiss.search. simpl.
  destruct (decide _); [| contradiction].
  replace (0 <? k)%Z with true by (symmetry; apply Z.ltb_lt; lia).
  destruct (Z.to_nat k) as [| n] eqn:Hn; [lia |].
  reflexivity.
Qed.

Lemma search_after_one_add (dim : nat) (t q : string) (k : Z) :
  (forall s, length (encode s) = dim) ->
  (1 <= k)%Z ->
  let store := snd (add_text encode t (FAISSStore_init dim)) in
  texts store = [t]
  /\ search encode q k store = (Return (replicate (Z.to_nat k) t), store).
Proof.
  intros Hd Hk. rewrite add_text_ok by (simpl; apply Hd). simpl.
  split; [reflexivity |].
  rewrite search_result. f_equal.
  unfold faiss.search. simpl.
  destruct (decide _) as [_ | Hne]; [| destruct Hne; apply Hd].
  replace (0 <? k)%Z with true by (symmetry; apply Z.ltb_lt; lia).
  destruct (Z.to_nat k) as [| n] eqn:Hn; [lia |].
  simpl. rewrite ?Nat.sub_0_r.
  rewrite take_nil. simpl. rewrite Nat.sub_0_r.
  pose proof (gather_padding [] t n) as G. simpl in G. rewrite G. reflexivity.
Qed.

(** C1 (the round trip, on the code): with an encoder of the index
    dimension, on a new store [add_text t] followed by [search t 1] returns
    [[t]]; but [search] on the new store itself, for any query and any
    [k >= 1], does not return the empty list: the flat index answers with
    [k] labels [-1], [-1 < len(self.texts)] holds, the comprehension
    subscripts the empty list with [-1] and [IndexError] is raised.  The
    store is left empty. *)
Theorem search_empty_store_raises (dim : nat) (t q : string) (k : Z) :
  (forall s, length (encode s) = dim) ->
  (1 <= k)%Z ->
  fst (search encode t 1 (snd (add_text encode t (FAISSStore_init dim)))) = Return [t]
  /\ search encode q k (FAISSStore_init dim) = (Raise IndexError, FAISSStore_init dim).
Proof.
  intros Hdim Hk. split.
  - destruct (search_after_one_add dim t t 1 Hdim) as [_ H]; [lia |].
    rewrite H. reflexivity.
  - apply search_new_store; [apply Hdim | exact Hk].
Qed.

(** C2 (the result bound, on the code): after a single [add_text t],
    [search q k] returns [k] copies of [t], for every query and every
    [k >= 1]: the one hit is label [0], the [k - 1] padding labels [-1] pass
    the bound check and [self.texts[-1]] is the last stored text.  For
    [k >= 2] the result is longer than the store. *)
Theorem search_single_text_repeats (dim : nat) (t q : string) (k : Z) :
  (forall s, length (encode s) = dim) ->
  (1 <= k)%Z ->
  let store := snd (add_text encode t (FAISSStore_init dim)) in
  texts store = [t]
  /\ search encode q k store = (Return (replicate (Z.to_nat k) t), store)
  /\ ((2 <= k)%Z -> length (texts store) < length (replicate (Z.to_nat k) t)).
Proof.
  intros Hdim Hk store.
  destruct (search_after_one_add dim t q k Hdim Hk) as [Ht Hs]. fold store in Ht, Hs.
  split; [exact Ht |]. split; [exact Hs |].
  intros Hk2. rewrite Ht, length_replicate. simpl. lia.
Qed.

Lemma run_call_lockstep (c : call) (s : FAISSStore) :
  lockstep s -> lockstep (run_call encode c s).
Proof.
  intros (Hn & Hd & Hv). destruct c as [t | q k]; simpl.
  - destruct (decide (length (encode t) = faiss.d (index s))) as [He | He].
    + rewrite add_text_ok by exact He. unfold lockstep, faiss.ntotal. simpl.
      unfold faiss.ntotal in Hn. rewrite !length_app, Hn. simpl.
      split; [reflexivity |]. split; [exact Hd |].
      apply Forall_app. split; [exact Hv |]. constructor; [congruence | constructor].
    + rewrite add_text_rejected by exact He. simpl. repeat split; assumption.
  - rewrite search_unchanged. repeat split; assumption.
Qed.

Lemma run_calls_lockstep (cs : list call) (s : FAISSStore) :
  lockstep s -> lockstep (run_calls encode cs s).
Proof.
  unfold run_calls. revert s.
  induction cs as [| c cs IH]; intros s Hs; simpl; [exact Hs |].
  apply IH. apply run_call_lockstep. exact Hs.
Qed.

Lemma init_lockstep (dim : nat) : lockstep (FAISSStore_init dim).
Proof. unfold lockstep, faiss.ntotal. simpl. repeat split. constructor. Qed.

Lemma run_call_size_monotone (c : call) (s : FAISSStore) :
  length (texts s) <= length (texts (run_call encode c s)).
Proof.
  destruct c as [t | q k]; simpl.
  - destruct (decide (length (encode t) = faiss.d (index s))) as [He | He].
    + rewrite add_text_ok by exact He. simpl. rewrite length_app. lia.
    + rewrite add_text_rejected by exact He. simpl. lia.
  - rewrite search_unchanged. lia.
Qed.

Section fixed_dimension.
Variable dim : nat.
Hypothesis encode_dim : forall t, length (encode t) = dim.

Lemma run_call_texts (c : call) (s : FAISSStore) :
  faiss.d (index s) = dim ->
  texts (run_call encode c s) = texts s ++ added_text c
  /\ faiss.d (index (run_call encode c s)) = dim.
Proof using encode_dim.
  intros Hd. destruct c as [t | q k]; simpl.
  - rewrite add_text_ok by (rewrite Hd; apply encode_dim). simpl. auto.
  - rewrite search_unchanged, app_nil_r. auto.
Qed.

Lemma run_calls_texts (cs : list call) (s : FAISSStore) :
  faiss.d (index s) = dim ->
  texts (run_calls encode cs s) = texts s ++ (cs ≫= added_text)
  /\ faiss.d (index (run_calls encode cs s)) = dim.
Proof using encode_dim.
  unfold run_calls. revert s.
  induction cs as [| c cs IH]; intros s Hd; simpl.
  - rewrite app_nil_r. auto.
  - destruct (run_call_texts c s Hd) as [Ht Hd'].
    destruct (IH _ Hd') as [IHt IHd]. rewrite IHt, Ht, <- app_assoc. auto.
Qed.

Lemma count_adds_length (cs : list call) :
  length (cs ≫= added_text) = count_adds cs.
Proof.
  induction cs as [| c cs IH]; [reflexivity |].
  rewrite bind_cons, length_app, IH. destruct c; reflexivity.
Qed.

End fixed_dimension.

(** C3: the store is append-only.  With an encoder of the index dimension,
    after any sequence of [add_text] and [search] calls on a new store the
    stored texts are exactly the added texts, in call order, so their number
    is the number of [add_text] calls in the sequence; and [search] leaves
    every store exactly as it was. *)
Theorem store_size_is_number_of_adds (dim : nat) (cs : list call) :
  (forall t, length (encode t) = dim) ->
  texts (run_calls encode cs (FAISSStore_init dim)) = cs ≫= added_text
  /\ length (texts (run_calls encode cs (FAISSStore_init dim))) = count_adds cs
  /\ (forall q k s, snd (search encode q k s) = s).
Proof.
  intros Hdim.
  destruct (run_calls_texts dim Hdim cs (FAISSStore_init dim) eq_refl) as [Ht _].
  simpl in Ht. split; [exact Ht |]. split.
  - rewrite Ht. apply count_adds_length.
  - intros q k s. apply search_unchanged.
Qed.

(** C10: index and text list stay in lockstep.  With an encoder of the
    index dimension, in every store reached from a new one by [add_text] and
    [search] calls the index holds as many vectors as there are texts, each
    of the configured dimension; a further [add_text t] returns, appends
    exactly the embedding of [t] to the index and exactly [t] to the texts;
    and a [search] changes neither. *)
Theorem index_and_texts_in_lockstep (dim : nat) (cs : list call) :
  (forall t, length (encode t) = dim) ->
  let s := run_calls encode cs (FAISSStore_init dim) in
  lockstep s
  /\ embedding_dim s = dim
  /\ (forall t,
        let s' := snd (add_text encode t s) in
        fst (add_text encode t s) = Return tt
        /\ faiss.xb (index s') = faiss.xb (index s) ++ [encode t]
        /\ texts s' = texts s ++ [t]
        /\ faiss.ntotal (index s') = length (texts s'))
  /\ (forall q k, snd (search encode q k s) = s).
Proof.
  intros Hdim s.
  assert (Hl : lockstep s) by (apply run_calls_lockstep, init_lockstep).
  destruct (run_calls_texts dim Hdim cs (FAISSStore_init dim) eq_refl) as [_ Hd].
  fold s in Hd. destruct Hl as (Hn & Hde & Hv).
  split; [repeat split; assumption |].
  split; [congruence |]. split.
  - intros t s'. subst s'.
    rewrite add_text_ok by (rewrite Hd; apply Hdim). simpl.
    repeat split. unfold faiss.ntotal in *. simpl.
    rewrite !length_app, Hn. reflexivity.
  - intros q k. apply search_unchanged.
Qed.

(** X1: what [search] returns, when it returns: at most [top_k] texts, each
    one a text of the store. *)
Theorem search_results_are_stored_texts (q : string) (k : Z) (s : FAISSStore)
    (rs : list string) :
  fst (search encode q k s) = Return rs ->
  length rs <= Z.to_nat k /\ Forall (fun r => r ∈ texts s) rs.
Proof.
  rewrite search_result. simpl.
  destruct (faiss.search _ _ _) as [labels |] eqn:Hl; simpl; [| discriminate].
  intros Hg. apply faiss_search_labels in Hl as [Hlen _].
  split; [rewrite <- Hlen; eapply gather_length; eauto | eapply gather_elem; eauto].
Qed.

(** X2: the number of stored texts never decreases, whatever the call and
    whether or not it raises. *)
Theorem store_size_monotone (cs : list call) (s : FAISSStore) :
  length (texts s) <= length (texts (run_calls encode cs s)).
Proof.
  unfold run_calls. revert s.
  induction cs as [| c cs IH]; intros s; simpl; [lia |].
  etransitivity; [apply run_call_size_monotone | apply IH].
Qed.

(** X3: round trip on a new store: after [add_text t], [search t 1] returns
    the one-element list [[t]]. *)
Theorem add_then_search_finds_text (dim : nat) (t : string) :
  (forall s, length (encode s) = dim) ->
  fst (search encode t 1 (snd (add_text encode t (FAISSStore_init dim)))) = Return [t].
Proof.
  intros Hdim.
  destruct (search_after_one_add dim t t 1 Hdim ltac:(lia)) as [_ H].
  rewrite H. reflexivity.
Qed.

End store_properties.

(** ** Prompts and the chat orchestrator *)

Lemma append_assoc (a b c : string) : (a +:+ b) +:+ c = a +:+ (b +:+ c).
Proof.
  induction a as [| ch a IH]; [reflexivity |].
  change (String ch ((a +:+ b) +:+ c) = String ch (a +:+ b +:+ c)).
  f_equal. exact IH.
Qed.

Lemma append_empty_r (a : string) : a +:+ "" = a.
Proof.
  induction a as [| ch a IH]; [reflexivity |].
  change (String ch (a +:+ "") = String ch a). f_equal. exact IH.
Qed.

Lemma contains_here (a sub b : string) : contains (a +:+ sub +:+ b) sub.
Proof. exists a, b. reflexivity. Qed.

Lemma contains_refl (s : string) : contains s s.
Proof. exists "", "". rewrite append_empty_r. reflexivity. Qed.

Lemma contains_append_l (p s sub : string) : contains s sub -> contains (p +:+ s) sub.
Proof.
  intros (a & b & ->). exists (p +:+ a), b. rewrite append_assoc. reflexivity.
Qed.

Lemma contains_append_r (s q sub : string) : contains s sub -> contains (s +:+ q) sub.
Proof.
  intros (a & b & ->). exists a, (b +:+ q). rewrite !append_assoc. reflexivity.
Qed.

Section integration_properties.
Variable encode : string -> embedding.
Variable py_repr : pyval -> string.
Variable getenv : string -> option string.
Variable requests_get : string -> outcome Response.
Variable agent_run : string -> string.

Lemma search_one_nonempty (q : string) (s : FAISSStore) :
  length (encode q) = embedding_dim s ->
  lockstep s ->
  texts s <> [] ->
  exists snippet, snippet ∈ texts s
    /\ search encode q 1 s = (Return [snippet], s).
Proof.
  intros Hq (Hn & Hd & _) Hne.
  rewrite search_result. unfold faiss.search.
  destruct (decide _) as [_ | Hbad]; [| destruct Hbad; congruence].
  change (0 <? 1)%Z with true. cbv iota. change (Z.to_nat 1) with 1.
  set (ranked := faiss.rank (faiss.scored (encode q) (faiss.xb (index s)))).
  assert (Hperm : ranked ≡ₚ faiss.scored (encode q) (faiss.xb (index s)))
    by apply rank_perm.
  assert (Hlen : length ranked = length (texts s)).
  { rewrite Hperm, scored_length. exact Hn. }
  destruct ranked as [| p rest] eqn:Hr.
  { simpl in Hlen. destruct (texts s); [contradiction | discriminate]. }
  assert (Hp : snd p < length (texts s)).
  { rewrite <- Hn. apply (rank_scored_label (encode q)). fold ranked.
    rewrite Hr. left. }
  destruct (lookup_lt_is_Some_2 (texts s) (snd p) Hp) as [t Ht].
  exists t. split; [eapply list_elem_of_lookup_2; eauto |].
  simpl. f_equal.
  replace (Z.of_nat p.2 <? Z.of_nat (length (texts s)))%Z with true
    by (symmetry; apply Z.ltb_lt; lia).
  rewrite (list_getitem_nonneg _ _ _ Ht). reflexivity.
Qed.


Lemma process_query_new_store (dim : nat) (query : string)
    (user_profile : gmap string pyval) :
  length (encode query) = dim ->
  process_query encode py_repr agent_run query user_profile (FAISSStore_init dim)
  = (Raise IndexError, FAISSStore_init dim).
Proof.
  intros Hq. unfold process_query, bind.
  rewrite (search_new_store encode dim query 1 Hq) by lia. reflexivity.
Qed.

(** C4 (the orchestrator, on the code): with an encoder of the index
    dimension, [process_query] on a store that holds no text raises
    [IndexError] out of [faiss_store.search], for every query and every
    profile: no prompt is built, the agent is not run, nothing is added and
    nothing is returned.  Since only [process_query] fills the store, no
    sequence of calls ever gets past this: the store stays empty. *)
Theorem process_query_first_call_raises (dim : nat) (query : string)
    (user_profile : gmap string pyval) :
  (forall t, length (encode t) = dim) ->
  process_query encode py_repr agent_run query user_profile (FAISSStore_init dim)
  = (Raise IndexError, FAISSStore_init dim)
  /\ forall queries,
       run_queries encode py_repr agent_run queries (FAISSStore_init dim)
       = FAISSStore_init dim.
Proof.
  intros Hdim. split; [apply process_query_new_store, Hdim |].
  intros queries. unfold run_queries.
  induction queries as [| [q p] queries IH]; simpl; [reflexivity |].
  rewrite process_query_new_store by apply Hdim. exact IH.
Qed.

(** X4: on a store that already holds a text, [process_query] does what its
    docstring says: the prompt carries the three profile fields, the query
    and one stored text as context; the agent's answer is returned as it is
    and is the one text appended to the store. *)
Theorem process_query_on_filled_store (query : string)
    (user_profile : gmap string pyval) (s : FAISSStore) :
  (forall t, length (encode t) = embedding_dim s) ->
  lockstep s ->
  texts s <> [] ->
  exists snippet,
    snippet ∈ texts s
    /\ let prompt := pre_prompt py_repr user_profile query [snippet] in
       let response := agent_run prompt in
       fst (process_query encode py_repr agent_run query user_profile s) = Return response
       /\ texts (snd (process_query encode py_repr agent_run query user_profile s))
          = texts s ++ [response]
       /\ contains prompt (py_str py_repr (profile_get user_profile "email"))
       /\ contains prompt (py_str py_repr (profile_get user_profile "full_name"))
       /\ contains prompt (py_str py_repr (profile_get user_profile "travel_preferences"))
       /\ contains prompt query
       /\ contains prompt ("Relevant historical data: " +:+ snippet).
Proof.
  intros Hdim Hl Hne.
  destruct (search_one_nonempty query s (Hdim query) Hl Hne) as (snippet & Hin & Hs).
  exists snippet. split; [exact Hin |]. intros prompt response.
  unfold process_query, bind. rewrite Hs. fold prompt. fold response.
  destruct Hl as (_ & Hd & _).
  rewrite add_text_ok by (rewrite Hd; apply Hdim). simpl.
  split; [reflexivity |]. split; [reflexivity |].
  subst prompt. unfold pre_prompt, profile_str, faiss_context.
  repeat split.
  - apply contains_append_l, contains_append_r, contains_here.
  - apply contains_append_l, contains_append_r.
    do 3 apply contains_append_l. apply contains_here.
  - apply contains_append_l, contains_append_r.
    do 7 apply contains_append_l. apply contains_refl.
  - do 3 apply contains_append_l. apply contains_here.
  - do 6 apply contains_append_l. apply contains_append_r, contains_refl.
Qed.

(** The prompt of a call whose search found nothing has an empty context
    line. *)
Lemma pre_prompt_no_context (user_profile : gmap string pyval) (query : string) :
  pre_prompt py_repr user_profile query []
  = "User Profile: " +:+ profile_str py_repr user_profile +:+ newline
    +:+ "User Query: " +:+ query +:+ newline +:+ newline
    +:+ "Using the above information, fetch relevant weather data and travel details. "
    +:+ "Provide a detailed travel recommendation with citations.".
Proof. reflexivity. Qed.

End integration_properties.

(** ** The weather tool *)

Section weather_properties.
Variable py_repr : pyval -> string.
Variable getenv : string -> option string.
Variable requests_get : string -> outcome Response.

(** C5: the weather tool's synchronous run.  Whatever the location, when
    the provider answers with a status other than 200 the tool returns the
    sentence [Unable to fetch weather data for <location>.] and raises
    nothing; when the provider answers 200 with a weather payload (an object
    whose [weather] list starts with an object holding [description], and
    whose [main] object holds [temp]) the tool returns the sentence built
    from that description and temperature. *)
Theorem weather_tool_run (query : string) (response : Response) :
  requests_get (OpenWeatherTool_url getenv query) = Return response ->
  (status_code response <> 200%Z ->
     OpenWeatherTool_run py_repr getenv requests_get query
     = Return ("Unable to fetch weather data for " +:+ query +:+ "."))
  /\ (forall entries others in_first in_main weather_desc temp,
        status_code response = 200%Z ->
        json response = Return (PyDict entries) ->
        dict_get entries "weather" = Some (PyList (PyDict in_first :: others)) ->
        dict_get in_first "description" = Some weather_desc ->
        dict_get entries "main" = Some (PyDict in_main) ->
        dict_get in_main "temp" = Some temp ->
        OpenWeatherTool_run py_repr getenv requests_get query
        = Return ("In " +:+ query +:+ ", the weather is '" +:+ py_str py_repr weather_desc
                  +:+ "' with a temperature of " +:+ py_str py_repr temp +:+ "Â°C.")).
Proof.
  intros Hget. unfold OpenWeatherTool_run. rewrite Hget. simpl. split.
  - intros Hs. destruct (decide _); [contradiction | reflexivity].
  - intros entries others in_first in_main weather_desc temp Hs Hj Hw Hd Hm Ht.
    destruct (decide _); [| contradiction].
    rewrite Hj. simpl. rewrite Hw. simpl.
    unfold list_getitem. simpl. rewrite Hd. simpl. rewrite Hm. simpl. rewrite Ht.
    reflexivity.
Qed.

(** Neither tool runs asynchronously. *)
Lemma tools_arun_not_implemented (query : string) :
  OpenWeatherTool_arun query = Raise (NotImplementedError "Asynchronous run not implemented")
  /\ SerpApiTool_arun query = Raise (NotImplementedError "Asynchronous run not implemented").
Proof. split; reflexivity. Qed.

End weather_properties.

(** ** Authentication, login and profile handlers *)

Section main_properties.
Variable encode : string -> embedding.
Variable py_repr : pyval -> string.
Variable agent_run : string -> string.
Variable hashpw : string -> string -> outcome string.
Variable checkpw : string -> string -> outcome bool.
Variable hmac : string -> string * gmap string pyval -> string.
Variable int_conv : pyval -> option Z.
Variable SECRET_KEY : string.
Variable gen_id : list User.t -> string.

Lemma login_unknown_email (w : world) (form_data : OAuth2PasswordRequestForm.t) :
  filter (fun u => User.email u = OAuth2PasswordRequestForm.username form_data) (users w)
  = [] ->
  login checkpw hmac SECRET_KEY form_data w
  = (Raise (HTTPException 400 "Incorrect email or password"), w).
Proof.
  intros Hsel. unfold login, bind, users_select_eq_email, get, ret, raise. simpl.
  rewrite Hsel. reflexivity.
Qed.

Lemma login_verdict (w : world) (form_data : OAuth2PasswordRequestForm.t)
    (user : User.t) (rest : list User.t) :
  filter (fun u => User.email u = OAuth2PasswordRequestForm.username form_data) (users w)
  = user :: rest ->
  login checkpw hmac SECRET_KEY form_data w
  = match checkpw (OAuth2PasswordRequestForm.password form_data)
                  (User.hashed_password user) with
    | Raise e => (Raise e, w)
    | Return false => (Raise (HTTPException 400 "Incorrect email or password"), w)
    | Return true =>
        (Return (Token.mk
           (jwt.encode hmac
              (<["exp" := PyInt (utcnow w + 30 * 60)]> {["sub" := PyStr (User.email user)]})
              SECRET_KEY ALGORITHM) "bearer"), w)
    end.
Proof.
  intros Hsel.
  unfold login, bind at 1, users_select_eq_email, bind, get, ret, raise, lift. simpl.
  rewrite Hsel. unfold verify_password.
  destruct (checkpw _ _) as [[|] | e]; reflexivity.
Qed.

Lemma login_accepts (w : world) (form_data : OAuth2PasswordRequestForm.t)
    (user : User.t) (rest : list User.t) :
  filter (fun u => User.email u = OAuth2PasswordRequestForm.username form_data) (users w)
  = user :: rest ->
  checkpw (OAuth2PasswordRequestForm.password form_data) (User.hashed_password user)
  = Return true ->
  login checkpw hmac SECRET_KEY form_data w
  = (Return (Token.mk
       (jwt.encode hmac
          (<["exp" := PyInt (utcnow w + 30 * 60)]> {["sub" := PyStr (User.email user)]})
          SECRET_KEY ALGORITHM) "bearer"), w).
Proof.
  intros Hsel Hpw. rewrite (login_verdict w form_data user rest Hsel), Hpw. reflexivity.
Qed.

(** The claims [login] signs pass every check until they expire. *)
Lemma login_claims_valid (email : string) (exp now : Z) :
  (now < exp)%Z ->
  jwt.validate_claims int_conv (<["exp" := PyInt exp]> {["sub" := PyStr email]}) now
  = Return tt.
Proof.
  intros Hnow.
  unfold jwt.validate_claims, jwt.validate_iat, jwt.validate_nbf, jwt.validate_exp,
    jwt.validate_aud, jwt.validate_sub, jwt.validate_jti.
  rewrite lookup_insert_eq.
  rewrite !lookup_insert_ne by discriminate.
  rewrite lookup_singleton_eq.
  rewrite !lookup_singleton_ne by discriminate.
  simpl.
  replace (exp <=? now)%Z with false by (symmetry; apply Z.leb_gt; lia).
  reflexivity.
Qed.

Lemma decode_encode (payload : gmap string pyval) (now : Z) :
  jwt.validate_claims int_conv payload now = Return tt ->
  jwt.decode hmac int_conv (jwt.encode hmac payload SECRET_KEY ALGORITHM)
    SECRET_KEY [ALGORITHM] now
  = Return payload.
Proof.
  intros Hv. unfold jwt.decode, jwt.encode.
  destruct (decide (ALGORITHM ∈ [ALGORITHM])) as [_ | Hno]; [| destruct Hno; left].
  destruct (decide _) as [_ | Hno]; [| destruct Hno; reflexivity].
  rewrite Hv. reflexivity.
Qed.







Lemma bind_raise {St A B} (m : M St A) (k : A -> M St B) (s s' : St) (e : exn) :
  m s = (Raise e, s') -> bind m k s = (Raise e, s').
Proof. intros H. unfold bind. rewrite H. reflexivity. Qed.

Lemma bind_return {St A B} (m : M St A) (k : A -> M St B) (s s' : St) (a : A) :
  m s = (Return a, s') -> bind m k s = k a s'.
Proof. intros H. unfold bind. rewrite H. reflexivity. Qed.

(** The authentication dependency only reads; the user it resolves is the
    first row of the table carrying that row's email. *)
Lemma get_current_user_reads (token : jwt.token) (w : world) :
  snd (get_current_user py_repr hmac int_conv SECRET_KEY token w) = w
  /\ forall current_user,
       fst (get_current_user py_repr hmac int_conv SECRET_KEY token w) = Return current_user ->
       exists rest,
         filter (fun u => User.email u = User.email current_user) (users w)
         = current_user :: rest.
Proof.
  unfold get_current_user, bind, get, raise. cbv beta iota.
  destruct (jwt.decode _ _ _ _ _) as [payload | e].
  - assert (Hsel : forall v : string,
      let r := (result <- users_select_eq_email v ;;
                match APIResponse.data result with
                | [] => raise credentials_exception
                | u :: _ => ret u
                end) w in
      snd r = w /\ forall cu, fst r = Return cu ->
        exists rest, filter (fun u => User.email u = User.email cu) (users w) = cu :: rest).
    { intros v. unfold users_select_eq_email, bind, get, ret, raise. simpl.
      destruct (filter _ _) as [| u rest] eqn:Hf; simpl.
      - split; [reflexivity | discriminate].
      - split; [reflexivity |]. intros cu [= <-].
        assert (Hu : User.email u = v).
        { assert (Hin : u ∈ filter (fun u => User.email u = v) (users w))
            by (rewrite Hf; left).
          apply list_elem_of_filter in Hin. exact (proj1 Hin). }
        rewrite Hu, Hf. eauto. }
    destruct (default PyNone (payload !! "sub")) eqn:Hsub;
      try (apply Hsel).
    split; [reflexivity | discriminate].
  - destruct e; (split; [reflexivity | discriminate]).
Qed.

Lemma filter_after_update (full_name : option string)
    (travel_preferences : list (string * pyval)) (v : string) (us : list User.t) :
  filter (fun u => User.email u = v)
    ((fun u => if decide (User.email u = v)
               then set_profile full_name travel_preferences u else u) <$> us)
  = set_profile full_name travel_preferences <$> filter (fun u => User.email u = v) us.
Proof.
  induction us as [| u us IH]; [reflexivity |].
  rewrite fmap_cons. destruct (decide (User.email u = v)) as [He | He].
  - rewrite !filter_cons_True by (simpl; exact He). rewrite fmap_cons, IH. reflexivity.
  - rewrite !filter_cons_False by exact He. exact IH.
Qed.

(** The three outcomes of a profile update: the refusal of the token; the
    refusal of the write; or the write, followed by the [AttributeError] of
    [response.error]. *)
Lemma update_profile_cases (updated_profile : UserProfile.t) (token : jwt.token)
    (w : world) :
  let full_name := UserProfile.full_name updated_profile in
  let travel_preferences := UserProfile.travel_preferences updated_profile in
  match get_current_user py_repr hmac int_conv SECRET_KEY token w with
  | (Raise e, _) =>
      update_profile py_repr hmac int_conv SECRET_KEY updated_profile token w = (Raise e, w)
  | (Return current_user, _) =>
      if writes_refused w
      then update_profile py_repr hmac int_conv SECRET_KEY updated_profile token w
           = (Raise APIError, w)
      else update_profile py_repr hmac int_conv SECRET_KEY updated_profile token w
           = (Raise (AttributeError "error"),
              with_users w
                ((fun u => if decide (User.email u = User.email current_user)
                           then set_profile full_name travel_preferences u else u)
                 <$> users w))
  end.
Proof.
  intros full_name travel_preferences.
  destruct (get_current_user_reads token w) as [Hw _].
  destruct (get_current_user py_repr hmac int_conv SECRET_KEY token w) as [[cu | e] w1] eqn:Hg;
    simpl in Hw; subst w1.
  - unfold update_profile. rewrite (bind_return _ _ _ _ _ Hg).
    unfold users_update_eq_email, bind, get, ret, put, raise, lift. cbv beta iota.
    destruct (writes_refused w) eqn:Hr; reflexivity.
  - unfold update_profile. apply bind_raise. exact Hg.
Qed.

(** C6: how [login] answers a failed attempt.  An attempt with an email no
    record has, and an attempt with a known email whose hash check returns
    false, get the same exception, status 400 with detail
    [Incorrect email or password], and change nothing.  But the hash check
    runs only for a known email and is not guarded: when it raises (bcrypt
    raises [ValueError] for a password of more than 72 bytes) the attempt
    gets that exception instead, so the answer tells a known email from an
    unknown one. *)
Theorem login_failure_responses (w1 w2 w3 : world)
    (unknown wrong failing : OAuth2PasswordRequestForm.t)
    (user2 user3 : User.t) (rest2 rest3 : list User.t) (e : exn) :
  filter (fun u => User.email u = OAuth2PasswordRequestForm.username unknown) (users w1)
  = [] ->
  filter (fun u => User.email u = OAuth2PasswordRequestForm.username wrong) (users w2)
  = user2 :: rest2 ->
  checkpw (OAuth2PasswordRequestForm.password wrong) (User.hashed_password user2)
  = Return false ->
  filter (fun u => User.email u = OAuth2PasswordRequestForm.username failing) (users w3)
  = user3 :: rest3 ->
  checkpw (OAuth2PasswordRequestForm.password failing) (User.hashed_password user3)
  = Raise e ->
  login checkpw hmac SECRET_KEY unknown w1
  = (Raise (HTTPException 400 "Incorrect email or password"), w1)
  /\ login checkpw hmac SECRET_KEY wrong w2
     = (Raise (HTTPException 400 "Incorrect email or password"), w2)
  /\ login checkpw hmac SECRET_KEY failing w3 = (Raise e, w3).
Proof.
  intros Hnone Hsel2 Hfalse Hsel3 Hraise.
  split; [apply login_unknown_email, Hnone |]. split.
  - rewrite (login_verdict w2 wrong user2 rest2 Hsel2), Hfalse. reflexivity.
  - rewrite (login_verdict w3 failing user3 rest3 Hsel3), Hraise. reflexivity.
Qed.

(** C7: the token of a successful login.  When the lookup by the supplied
    email finds a record and the supplied password verifies against its
    hash, [login] returns a bearer token; at any time before its expiry the
    token decodes, under the signing secret, to claims whose [sub] is the
    stored email of that record (which is the supplied email) and whose
    [exp] is the time of issuance plus 30 minutes. *)
Theorem login_token_claims (w : world) (form_data : OAuth2PasswordRequestForm.t)
    (user : User.t) (rest : list User.t) :
  filter (fun u => User.email u = OAuth2PasswordRequestForm.username form_data) (users w)
  = user :: rest ->
  checkpw (OAuth2PasswordRequestForm.password form_data) (User.hashed_password user)
  = Return true ->
  exists access_token,
    login checkpw hmac SECRET_KEY form_data w = (Return (Token.mk access_token "bearer"), w)
    /\ User.email user = OAuth2PasswordRequestForm.username form_data
    /\ forall now, (now < utcnow w + timedelta_minutes 30)%Z ->
         exists payload,
           jwt.decode hmac int_conv access_token SECRET_KEY [ALGORITHM] now = Return payload
           /\ payload !! "sub" = Some (PyStr (User.email user))
           /\ payload !! "exp" = Some (PyInt (utcnow w + timedelta_minutes 30)).
Proof.
  intros Hsel Hpw. eexists. split; [apply (login_accepts w form_data user rest Hsel Hpw) |].
  split.
  { assert (Hin : user ∈ filter
      (fun u => User.email u = OAuth2PasswordRequestForm.username form_data) (users w))
      by (rewrite Hsel; left).
    apply list_elem_of_filter in Hin. exact (proj1 Hin). }
  intros now Hnow. unfold timedelta_minutes in Hnow |- *. eexists. split.
  - apply decode_encode, login_claims_valid. exact Hnow.
  - split.
    + rewrite lookup_insert_ne by discriminate. apply lookup_singleton_eq.
    + rewrite lookup_insert_eq. reflexivity.
Qed.


(** C9: what a profile update may touch.  Whatever the token and the body,
    after [update_profile] the table has the same rows in the same order,
    each with its [id], [email] and [hashed_password] as before; a row is
    changed only if the token resolved to a user with that row's email, and
    then only by setting [full_name] and [travel_preferences] to the body's;
    the memory store, the clock and the write switch are untouched; and the
    body's [id] and [email] play no part: two bodies that agree on
    [full_name] and [travel_preferences] give the same result and state. *)
Theorem update_profile_frame (w : world) (token : jwt.token)
    (updated_profile : UserProfile.t) :
  let run body := update_profile py_repr hmac int_conv SECRET_KEY body token w in
  let w' := snd (run updated_profile) in
  Forall2
    (fun u u' =>
       User.id u' = User.id u
       /\ User.email u' = User.email u
       /\ User.hashed_password u' = User.hashed_password u
       /\ (u' = u
           \/ (exists current_user,
                 fst (get_current_user py_repr hmac int_conv SECRET_KEY token w) = Return current_user
                 /\ User.email u = User.email current_user)
              /\ u' = set_profile (UserProfile.full_name updated_profile)
                                  (UserProfile.travel_preferences updated_profile) u))
    (users w) (users w')
  /\ memory w' = memory w
  /\ utcnow w' = utcnow w
  /\ writes_refused w' = writes_refused w
  /\ (forall other_id other_email,
        run (UserProfile.mk other_id other_email
               (UserProfile.full_name updated_profile)
               (UserProfile.travel_preferences updated_profile))
        = run updated_profile).
Proof.
  intros run w'. subst w' run. cbv beta.
  pose proof (update_profile_cases updated_profile token w) as Hp.
  assert (Hsame : forall other_id other_email,
    update_profile py_repr hmac int_conv SECRET_KEY
      (UserProfile.mk other_id other_email (UserProfile.full_name updated_profile)
         (UserProfile.travel_preferences updated_profile)) token w
    = update_profile py_repr hmac int_conv SECRET_KEY updated_profile token w).
  { intros oid oem.
    pose proof (update_profile_cases
      (UserProfile.mk oid oem (UserProfile.full_name updated_profile)
         (UserProfile.travel_preferences updated_profile)) token w) as Hq.
    cbv zeta in Hp, Hq. simpl in Hq.
    destruct (get_current_user py_repr hmac int_conv SECRET_KEY token w) as [[cu | e] w1];
      [destruct (writes_refused w) |]; rewrite Hp, Hq; reflexivity. }
  assert (Hrefl : Forall2
    (fun u u' =>
       User.id u' = User.id u
       /\ User.email u' = User.email u
       /\ User.hashed_password u' = User.hashed_password u
       /\ (u' = u
           \/ (exists current_user,
                 fst (get_current_user py_repr hmac int_conv SECRET_KEY token w) = Return current_user
                 /\ User.email u = User.email current_user)
              /\ u' = set_profile (UserProfile.full_name updated_profile)
                                  (UserProfile.travel_preferences updated_profile) u))
    (users w) (users w)).
  { apply Forall_Forall2_diag, Forall_forall. intros u _. auto. }
  cbv zeta in Hp.
  destruct (get_current_user py_repr hmac int_conv SECRET_KEY token w) as [[cu | e] w1] eqn:Hg.
  - destruct (writes_refused w) eqn:Hr.
    + rewrite Hp in Hsame |- *. simpl. auto.
    + rewrite Hp in Hsame |- *. simpl. repeat split; [| exact Hr | exact Hsame].
      apply Forall2_fmap_r, Forall_Forall2_diag, Forall_forall. intros u _.
      simpl. destruct (decide (User.email u = User.email cu)) as [He | He]; simpl.
      * do 3 (split; [reflexivity |]). right. split; [exists cu; auto | reflexivity].
      * auto.
  - rewrite Hp in Hsame |- *. simpl. auto.
Qed.

End main_properties.

(** ** Signup and chat *)

Section signup_and_chat.
Variable encode : string -> embedding.
Variable py_repr : pyval -> string.
Variable agent_run : string -> string.
Variable hashpw : string -> string -> outcome string.
Variable checkpw : string -> string -> outcome bool.
Variable hmac : string -> string * gmap string pyval -> string.
Variable int_conv : pyval -> option Z.
Variable SECRET_KEY : string.
Variable gen_id : list User.t -> string.

Lemma signup_existing_email (w : world) (user : UserSignup.t) :
  (exists u, u ∈ users w /\ User.email u = UserSignup.email user) ->
  signup hashpw gen_id user w = (Raise (HTTPException 400 "Email already registered"), w).
Proof.
  intros (u & Hin & He).
  unfold signup, bind, users_select_eq_email, get, ret, raise. simpl.
  destruct (filter _ _) as [| u' rest] eqn:Hf; [| reflexivity].
  assert (Hu : u ∈ filter (fun u => User.email u = UserSignup.email user) (users w))
    by (apply list_elem_of_filter; auto).
  rewrite Hf in Hu. inversion Hu.
Qed.

(** X5: signing up with an email that a stored record already has is refused
    with status 400 and changes nothing. *)
Theorem signup_duplicate_is_rejected (w : world) (user : UserSignup.t) :
  (exists u, u ∈ users w /\ User.email u = UserSignup.email user) ->
  signup hashpw gen_id user w = (Raise (HTTPException 400 "Email already registered"), w)
  /\ http_status (fst (signup hashpw gen_id user w)) = 400%Z.
Proof.
  intros H. rewrite (signup_existing_email w user H). split; reflexivity.
Qed.

(** A signup with a new email, while the table accepts writes and the
    password hashes, appends one record holding the email, the hash of the
    password under the next salt, the given name and empty preferences; the
    handler then fails on [response.error]. *)
Lemma signup_new (w : world) (user : UserSignup.t) (hashed : string) :
  filter (fun u => User.email u = UserSignup.email user) (users w) = [] ->
  writes_refused w = false ->
  hashpw (UserSignup.password user) (match salts w with [] => "" | s :: _ => s end)
  = Return hashed ->
  let row := User.mk (gen_id (users w)) (UserSignup.email user) hashed
               (UserSignup.full_name user) [] in
  fst (signup hashpw gen_id user w) = Raise (AttributeError "error")
  /\ users (snd (signup hashpw gen_id user w)) = users w ++ [row].
Proof.
  intros Hf Hr Hh.
  unfold signup, bind, users_select_eq_email, get, ret, raise. simpl. rewrite Hf.
  unfold get_password_hash, gensalt, bind, get, ret, put, lift.
  destruct (salts w) as [| s ss]; simpl; rewrite Hh;
    unfold users_insert, bind, get, ret, put, lift, raise; simpl; rewrite Hr; simpl;
    split; reflexivity.
Qed.

(** X6: signup is idempotent-rejecting.  A signup with a new email, while
    the table accepts writes and the password hashes, writes its record and
    then fails on [response.error], which the result of [execute()] does not
    have: the client sees status 500.  The record is there all the same: a
    second signup with the same email is refused as a duplicate, status 400,
    whatever password and name it carries. *)
Theorem signup_twice_is_rejected (w : world) (user again : UserSignup.t) :
  filter (fun u => User.email u = UserSignup.email user) (users w) = [] ->
  writes_refused w = false ->
  (forall salt, exists hashed, hashpw (UserSignup.password user) salt = Return hashed) ->
  UserSignup.email again = UserSignup.email user ->
  let w1 := snd (signup hashpw gen_id user w) in
  fst (signup hashpw gen_id user w) = Raise (AttributeError "error")
  /\ http_status (fst (signup hashpw gen_id user w)) = 500%Z
  /\ signup hashpw gen_id again w1
     = (Raise (HTTPException 400 "Email already registered"), w1).
Proof.
  intros Hf Hr Hh He w1.
  destruct (Hh (match salts w with [] => "" | s :: _ => s end)) as [hashed Hhashed].
  destruct (signup_new w user hashed Hf Hr Hhashed) as [Hret Hus].
  split; [exact Hret |]. split; [rewrite Hret; reflexivity |].
  apply signup_existing_email. eexists. split.
  - subst w1. rewrite Hus. apply elem_of_app. right. left.
  - simpl. symmetry. exact He.
Qed.

(** X7: with a hash function whose hashes verify, a user who signed up can
    log in with the same email and password, and the token's subject is
    that email. *)
Theorem signup_then_login (w : world) (user : UserSignup.t) :
  (forall salt, exists hashed,
     hashpw (UserSignup.password user) salt = Return hashed
     /\ checkpw (UserSignup.password user) hashed = Return true) ->
  filter (fun u => User.email u = UserSignup.email user) (users w) = [] ->
  writes_refused w = false ->
  let w1 := snd (signup hashpw gen_id user w) in
  exists access_token payload,
    fst (login checkpw hmac SECRET_KEY
           (OAuth2PasswordRequestForm.mk (UserSignup.email user) (UserSignup.password user))
           w1)
    = Return (Token.mk access_token "bearer")
    /\ jwt.decode hmac int_conv access_token SECRET_KEY [ALGORITHM] (utcnow w1) = Return payload
    /\ payload !! "sub" = Some (PyStr (UserSignup.email user)).
Proof.
  intros Hck Hf Hr w1.
  destruct (Hck (match salts w with [] => "" | s :: _ => s end)) as (hashed & Hh & Hv).
  destruct (signup_new w user hashed Hf Hr Hh) as [_ Hus]. fold w1 in Hus.
  cbv zeta in Hus.
  set (row := User.mk (gen_id (users w)) (UserSignup.email user) hashed
                (UserSignup.full_name user) []) in Hus.
  assert (Hsel : filter (fun u => User.email u = UserSignup.email user) (users w1) = [row]).
  { rewrite Hus, filter_app, Hf. simpl. rewrite filter_cons_True by reflexivity.
    reflexivity. }
  pose proof (login_accepts checkpw hmac SECRET_KEY w1
    (OAuth2PasswordRequestForm.mk (UserSignup.email user) (UserSignup.password user))
    row [] Hsel Hv) as Hlogin.
  do 2 eexists. rewrite Hlogin. split; [reflexivity |]. split.
  - apply decode_encode, login_claims_valid. lia.
  - rewrite lookup_insert_ne by discriminate. apply lookup_singleton_eq.
Qed.

(** X8: the first chat of a process: with a valid token and a non-empty query
    of the index dimension, [chat] on a memory store that holds no text
    fails with the [IndexError] of [process_query]; the client sees status
    500 and the store stays empty. *)
Theorem chat_on_empty_memory (w : world) (token : jwt.token) (current_user : User.t)
    (query_data : ChatQuery.t) :
  get_current_user py_repr hmac int_conv SECRET_KEY token w = (Return current_user, w) ->
  ChatQuery.query query_data <> "" ->
  memory w = FAISSStore_init (length (encode (ChatQuery.query query_data))) ->
  chat encode py_repr agent_run hmac int_conv SECRET_KEY query_data token w = (Raise IndexError, w)
  /\ http_status (fst (chat encode py_repr agent_run hmac int_conv SECRET_KEY query_data token w))
     = 500%Z.
Proof.
  intros Hg Hq Hm.
  assert (Hc : chat encode py_repr agent_run hmac int_conv SECRET_KEY query_data token w
               = (Raise IndexError, w)).
  { unfold chat. rewrite (bind_return _ _ _ _ _ Hg).
    destruct (decide _) as [He | _]; [contradiction |].
    apply bind_raise. unfold on_memory. rewrite Hm.
    rewrite process_query_new_store by reflexivity.
    destruct w; simpl in *. rewrite Hm. reflexivity. }
  rewrite Hc. split; reflexivity.
Qed.

(** [timedelta(0)] is falsy: a zero lifetime asks for the default one. *)
Lemma create_access_token_zero_delta (data : gmap string pyval) (w : world) :
  create_access_token hmac SECRET_KEY data (Some 0%Z) w
  = create_access_token hmac SECRET_KEY data None w.
Proof. reflexivity. Qed.

End signup_and_chat.

(** ** The theorems at concrete inputs *)

Lemma search_empty_store_raises_witness :
  fst (search sample.encode "hello" 1
         (snd (add_text sample.encode "hello" (FAISSStore_init 2)))) = Return ["hello"]
  /\ search sample.encode "hello" 1 (FAISSStore_init 2)
     = (Raise IndexError, FAISSStore_init 2).
Proof.
  apply (search_empty_store_raises sample.encode 2 "hello" "hello" 1); [reflexivity | lia].
Defined.

Lemma search_single_text_repeats_witness :
  let store := snd (add_text sample.encode "a" (FAISSStore_init 2)) in
  texts store = ["a"]
  /\ search sample.encode "b" 3 store = (Return ["a"; "a"; "a"], store)
  /\ ((2 <= 3)%Z -> length (texts store) < length ["a"; "a"; "a"]).
Proof.
  apply (search_single_text_repeats sample.encode 2 "a" "b" 3); [reflexivity | lia].
Defined.

Lemma store_size_is_number_of_adds_witness :
  texts (run_calls sample.encode [Add "a"; Search "a" 1; Add "b"; Search "z" 5]
           (FAISSStore_init 2)) = ["a"; "b"]
  /\ length (texts (run_calls sample.encode [Add "a"; Search "a" 1; Add "b"; Search "z" 5]
                      (FAISSStore_init 2))) = 2
  /\ (forall q k s, snd (search sample.encode q k s) = s).
Proof.
  apply (store_size_is_number_of_adds sample.encode 2
           [Add "a"; Search "a" 1; Add "b"; Search "z" 5]).
  reflexivity.
Defined.

Lemma index_and_texts_in_lockstep_witness :
  let s := run_calls sample.encode [Add "a"; Search "a" 1; Add "b"] (FAISSStore_init 2) in
  lockstep s
  /\ embedding_dim s = 2
  /\ (forall t,
        let s' := snd (add_text sample.encode t s) in
        fst (add_text sample.encode t s) = Return tt
        /\ faiss.xb (index s') = faiss.xb (index s) ++ [sample.encode t]
        /\ texts s' = texts s ++ [t]
        /\ faiss.ntotal (index s') = length (texts s'))
  /\ (forall q k, snd (search sample.encode q k s) = s).
Proof.
  apply (index_and_texts_in_lockstep sample.encode 2 [Add "a"; Search "a" 1; Add "b"]).
  reflexivity.
Defined.

Lemma process_query_first_call_raises_witness :
  process_query sample.encode sample.py_repr sample.agent_run "weather in Paris"
    {[ "email" := PyStr "a@x.com" ]} (FAISSStore_init 2)
  = (Raise IndexError, FAISSStore_init 2)
  /\ forall queries,
       run_queries sample.encode sample.py_repr sample.agent_run queries
         (FAISSStore_init 2)
       = FAISSStore_init 2.
Proof.
  apply (process_query_first_call_raises sample.encode sample.py_repr sample.agent_run
           2 "weather in Paris").
  reflexivity.
Defined.

Lemma weather_tool_run_witness :
  OpenWeatherTool_run sample.py_repr sample.getenv
    (sample.requests_get 404 (Raise JSONDecodeError)) "Paris"
  = Return "Unable to fetch weather data for Paris."
  /\ OpenWeatherTool_run sample.py_repr sample.getenv
       (sample.requests_get 200 (Return (PyDict sample.weather_entries))) "Paris"
     = Return "In Paris, the weather is 'light rain' with a temperature of 15.3Â°C.".
Proof.
  split.
  - apply (weather_tool_run sample.py_repr sample.getenv
             (sample.requests_get 404 (Raise JSONDecodeError)) "Paris"
             (mkResponse 404 (Raise JSONDecodeError)) eq_refl).
    simpl. lia.
  - apply (proj2 (weather_tool_run sample.py_repr sample.getenv
             (sample.requests_get 200 (Return (PyDict sample.weather_entries))) "Paris"
             (mkResponse 200 (Return (PyDict sample.weather_entries))) eq_refl)
           sample.weather_entries [] [("id", PyInt 500); ("description", PyStr "light rain")]
           [("temp", PyFloat "15.3"); ("humidity", PyInt 81)]
           (PyStr "light rain") (PyFloat "15.3"));
      reflexivity.
Defined.

(** C5, as worded, at a concrete input: the provider answers 200 with an
    empty JSON object and [_run] raises instead of returning a sentence. *)
Lemma weather_tool_run_counterexample :
  OpenWeatherTool_run sample.py_repr sample.getenv
    (sample.requests_get 200 (Return (PyDict []))) "Paris"
  = Raise (KeyError "weather").
Proof. reflexivity. Qed.

Lemma login_failure_responses_witness :
  login sample.checkpw sample.hmac sample.SECRET_KEY
    (OAuth2PasswordRequestForm.mk "nobody@x.com" sample.long_password) sample.w0
  = (Raise (HTTPException 400 "Incorrect email or password"), sample.w0)
  /\ login sample.checkpw sample.hmac sample.SECRET_KEY
       (OAuth2PasswordRequestForm.mk "a@x.com" "wrong") sample.w0
     = (Raise (HTTPException 400 "Incorrect email or password"), sample.w0)
  /\ login sample.checkpw sample.hmac sample.SECRET_KEY
       (OAuth2PasswordRequestForm.mk "a@x.com" sample.long_password) sample.w0
     = (Raise ValueError, sample.w0).
Proof.
  apply (login_failure_responses sample.checkpw sample.hmac sample.SECRET_KEY
           sample.w0 sample.w0 sample.w0
           (OAuth2PasswordRequestForm.mk "nobody@x.com" sample.long_password)
           (OAuth2PasswordRequestForm.mk "a@x.com" "wrong")
           (OAuth2PasswordRequestForm.mk "a@x.com" sample.long_password)
           sample.alice sample.alice [] [] ValueError);
    reflexivity.
Defined.

Lemma login_token_claims_witness :
  exists access_token,
    login sample.checkpw sample.hmac sample.SECRET_KEY
      (OAuth2PasswordRequestForm.mk "a@x.com" "pw") sample.w0
    = (Return (Token.mk access_token "bearer"), sample.w0)
    /\ User.email sample.alice = "a@x.com"
    /\ forall now, (now < 1000 + timedelta_minutes 30)%Z ->
         exists payload,
           jwt.decode sample.hmac sample.int_conv access_token sample.SECRET_KEY [ALGORITHM] now
           = Return payload
           /\ payload !! "sub" = Some (PyStr "a@x.com")
           /\ payload !! "exp" = Some (PyInt (1000 + timedelta_minutes 30)).
Proof.
  apply (login_token_claims sample.checkpw sample.hmac sample.int_conv sample.SECRET_KEY
           sample.w0
           (OAuth2PasswordRequestForm.mk "a@x.com" "pw") sample.alice []);
    reflexivity.
Defined.


Lemma search_results_are_stored_texts_witness :
  length ["bb"] <= Z.to_nat 1
  /\ Forall (fun r => r ∈ ["a"; "bb"]) ["bb"].
Proof.
  apply (search_results_are_stored_texts sample.encode "xx" 1
           (run_calls sample.encode [Add "a"; Add "bb"] (FAISSStore_init 2)) ["bb"]).
  reflexivity.
Defined.

Lemma add_then_search_finds_text_witness :
  fst (search sample.encode "hello" 1
         (snd (add_text sample.encode "hello" (FAISSStore_init 2))))
  = Return ["hello"].
Proof.
  apply (add_then_search_finds_text sample.encode 2 "hello"). reflexivity.
Defined.

Lemma process_query_on_filled_store_witness :
  exists snippet,
    snippet ∈ ["Visit the Louvre."]
    /\ fst (process_query sample.encode sample.py_repr sample.agent_run "weather in Paris"
              {[ "email" := PyStr "a@x.com" ]}
              (run_calls sample.encode [Add "Visit the Louvre."] (FAISSStore_init 2)))
       = Return "Pack an umbrella.".
Proof.
  destruct (process_query_on_filled_store sample.encode sample.py_repr sample.agent_run
              "weather in Paris" {[ "email" := PyStr "a@x.com" ]}
              (run_calls sample.encode [Add "Visit the Louvre."] (FAISSStore_init 2)))
    as (snippet & Hin & Hret & _).
  - reflexivity.
  - unfold lockstep. simpl. repeat split. repeat constructor.
  - discriminate.
  - exists snippet. split; [exact Hin | exact Hret].
Defined.

Lemma signup_duplicate_is_rejected_witness :
  signup sample.hashpw sample.gen_id (UserSignup.mk "a@x.com" "other" None) sample.w0
  = (Raise (HTTPException 400 "Email already registered"), sample.w0)
  /\ http_status (fst (signup sample.hashpw sample.gen_id
                         (UserSignup.mk "a@x.com" "other" None) sample.w0)) = 400%Z.
Proof.
  apply (signup_duplicate_is_rejected sample.hashpw sample.gen_id sample.w0
           (UserSignup.mk "a@x.com" "other" None)).
  exists sample.alice. split; [left | reflexivity].
Defined.

Lemma signup_twice_is_rejected_witness :
  let w1 := snd (signup sample.hashpw sample.gen_id
                   (UserSignup.mk "c@x.com" "pw3" (Some "C")) sample.w0) in
  fst (signup sample.hashpw sample.gen_id
         (UserSignup.mk "c@x.com" "pw3" (Some "C")) sample.w0)
  = Raise (AttributeError "error")
  /\ http_status (fst (signup sample.hashpw sample.gen_id
                         (UserSignup.mk "c@x.com" "pw3" (Some "C")) sample.w0)) = 500%Z
  /\ signup sample.hashpw sample.gen_id (UserSignup.mk "c@x.com" "again" None) w1
     = (Raise (HTTPException 400 "Email already registered"), w1).
Proof.
  apply (signup_twice_is_rejected sample.hashpw sample.gen_id sample.w0
           (UserSignup.mk "c@x.com" "pw3" (Some "C"))
           (UserSignup.mk "c@x.com" "again" None)).
  - reflexivity.
  - reflexivity.
  - intros salt. exists "pw3". reflexivity.
  - reflexivity.
Defined.

Lemma signup_then_login_witness :
  let w1 := snd (signup sample.hashpw sample.gen_id
                   (UserSignup.mk "c@x.com" "pw3" (Some "C")) sample.w0) in
  exists access_token payload,
    fst (login sample.checkpw sample.hmac sample.SECRET_KEY
           (OAuth2PasswordRequestForm.mk "c@x.com" "pw3") w1)
    = Return (Token.mk access_token "bearer")
    /\ jwt.decode sample.hmac sample.int_conv access_token sample.SECRET_KEY [ALGORITHM]
         (utcnow w1)
       = Return payload
    /\ payload !! "sub" = Some (PyStr "c@x.com").
Proof.
  apply (signup_then_login sample.hashpw sample.checkpw sample.hmac sample.int_conv
           sample.SECRET_KEY sample.gen_id sample.w0
           (UserSignup.mk "c@x.com" "pw3" (Some "C"))).
  - intros salt. exists "pw3". split; reflexivity.
  - reflexivity.
  - reflexivity.
Defined.

Lemma chat_on_empty_memory_witness :
  let token :=
    jwt.encode sample.hmac {[ "sub" := PyStr "a@x.com"; "exp" := PyInt 2800 ]}
      sample.SECRET_KEY ALGORITHM in
  chat sample.encode sample.py_repr sample.agent_run sample.hmac sample.int_conv sample.SECRET_KEY
    (ChatQuery.mk "weather in Paris") token sample.w0
  = (Raise IndexError, sample.w0)
  /\ http_status (fst (chat sample.encode sample.py_repr sample.agent_run sample.hmac
                         sample.int_conv sample.SECRET_KEY (ChatQuery.mk "weather in Paris") token
                         sample.w0)) = 500%Z.
Proof.
  apply (chat_on_empty_memory sample.encode sample.py_repr sample.agent_run sample.hmac
           sample.int_conv sample.SECRET_KEY sample.w0
           (jwt.encode sample.hmac {[ "sub" := PyStr "a@x.com"; "exp" := PyInt 2800 ]}
              sample.SECRET_KEY ALGORITHM)
           sample.alice (ChatQuery.mk "weather in Paris")).
  - reflexivity.
  - discriminate.
  - reflexivity.
Defined.

(** A profile update on the sample table: the handler fails on
    [response.error] after the write; only the caller's row changed, and
    only in its name and preferences. *)
Example update_profile_sample :
  let token :=
    jwt.encode sample.hmac {[ "sub" := PyStr "a@x.com"; "exp" := PyInt 2800 ]}
      sample.SECRET_KEY ALGORITHM in
  let body := UserProfile.mk (Some "1") "b@x.com" (Some "Alice")
                [("pace", PyStr "slow")] in
  let new_alice := User.mk "0" "a@x.com" "pw" (Some "Alice") [("pace", PyStr "slow")] in
  update_profile sample.py_repr sample.hmac sample.int_conv sample.SECRET_KEY body token
    sample.w0
  = (Raise (AttributeError "error"), with_users sample.w0 [new_alice; sample.bob]).
Proof. reflexivity. Qed.

(** ** More on the memory store *)

Lemma rank_insert_head_least (p : Q * nat) (l : list (Q * nat)) :
  match l with
  | [] => True
  | h :: _ => Forall (fun q => (fst h <= fst q)%Q) l
  end ->
  match faiss.rank_insert p l with
  | [] => True
  | h :: _ => Forall (fun q => (fst h <= fst q)%Q) (faiss.rank_insert p l)
  end.
Proof.
  destruct l as [| h l]; simpl.
  - intros _. constructor; [apply Qle_refl | constructor].
  - intros Hh. destruct (Qle_bool (fst h) (fst p)) eqn:Hle.
    + apply Qle_bool_iff in Hle. inversion Hh as [| ? ? Hhh Hl]; subst.
      constructor; [exact Hhh |].
      rewrite rank_insert_perm. constructor; assumption.
    + assert (Hlt : (fst p < fst h)%Q).
      { apply Qnot_le_lt. intros Hc. apply Qle_bool_iff in Hc. congruence. }
      constructor; [apply Qle_refl |].
      eapply Forall_impl; [exact Hh |]. intros q Hq. simpl in Hq.
      eapply Qle_trans; [apply Qlt_le_weak; exact Hlt | exact Hq].
Qed.

Lemma rank_head_least (l : list (Q * nat)) (h : Q * nat) (rest : list (Q * nat)) :
  faiss.rank l = h :: rest -> Forall (fun q => (fst h <= fst q)%Q) l.
Proof.
  intros Hr.
  assert (Hinv : forall l acc,
    match acc with
    | [] => True
    | h :: _ => Forall (fun q => (fst h <= fst q)%Q) acc
    end ->
    match fold_left (fun acc p => faiss.rank_insert p acc) l acc with
    | [] => True
    | h :: _ => Forall (fun q => (fst h <= fst q)%Q)
                  (fold_left (fun acc p => faiss.rank_insert p acc) l acc)
    end).
  { clear. induction l as [| p l IH]; intros acc Hacc; simpl; [exact Hacc |].
    apply IH, rank_insert_head_least, Hacc. }
  specialize (Hinv l [] I). fold (faiss.rank l) in Hinv. rewrite Hr in Hinv.
  rewrite <- (rank_perm l), Hr. exact Hinv.
Qed.

Lemma scored_lookup (x : embedding) (ys : list embedding) (p : Q * nat) :
  p ∈ faiss.scored x ys ->
  exists y, ys !! snd p = Some y /\ fst p = faiss.l2sqr x y.
Proof.
  unfold faiss.scored. intros H.
  apply list_elem_of_lookup in H as [i Hi].
  rewrite list_lookup_imap in Hi.
  destruct (ys !! i) as [y |] eqn:Hy; simpl in Hi; [| discriminate].
  injection Hi as <-. simpl. eauto.
Qed.

Lemma scored_elem (x : embedding) (ys : list embedding) (i : nat) (y : embedding) :
  ys !! i = Some y -> (faiss.l2sqr x y, i) ∈ faiss.scored x ys.
Proof.
  intros Hy. unfold faiss.scored. apply list_elem_of_lookup. exists i.
  rewrite list_lookup_imap, Hy. reflexivity.
Qed.

Lemma Qsquare_nonneg (c : Q) : (0 <= c * c)%Q.
Proof.
  destruct (Qlt_le_dec c 0) as [Hneg | Hpos].
  - assert (E : (c * c == (- c) * (- c))%Q) by ring.
    rewrite E. apply Qmult_le_0_compat; lra.
  - apply Qmult_le_0_compat; exact Hpos.
Qed.

Lemma l2sqr_nonneg (x y : embedding) : (0 <= faiss.l2sqr x y)%Q.
Proof.
  revert y. induction x as [| a x IH]; intros [| b y]; simpl; try apply Qle_refl.
  specialize (IH y). pose proof (Qsquare_nonneg (a - b)). lra.
Qed.

Lemma l2sqr_self (x : embedding) : (faiss.l2sqr x x == 0)%Q.
Proof. induction x as [| a x IH]; simpl; [reflexivity |]. rewrite IH. ring. Qed.

Lemma l2sqr_zero (x y : embedding) :
  length x = length y -> (faiss.l2sqr x y == 0)%Q -> Forall2 Qeq x y.
Proof.
  revert y. induction x as [| a x IH]; intros [| b y] Hlen H0; simpl in *;
    try discriminate; [constructor |].
  pose proof (l2sqr_nonneg x y) as Hr.
  pose proof (Qsquare_nonneg (a - b)) as Hs.
  assert (Hsq : ((a - b) * (a - b) == 0)%Q) by lra.
  assert (Hrest : (faiss.l2sqr x y == 0)%Q) by lra.
  constructor.
  - apply Qmult_integral in Hsq. destruct Hsq; lra.
  - apply IH; [lia | exact Hrest].
Qed.

Section store_extras.
Variable encode : string -> embedding.

Lemma run_call_embeds (c : call) (s : FAISSStore) :
  embeds encode s -> embeds encode (run_call encode c s).
Proof.
  unfold embeds. intros He. destruct c as [t | q k]; simpl.
  - destruct (decide (length (encode t) = faiss.d (index s))) as [Hd | Hd].
    + rewrite add_text_ok by exact Hd. simpl. rewrite He, fmap_app. reflexivity.
    + rewrite add_text_rejected by exact Hd. exact He.
  - rewrite search_unchanged. exact He.
Qed.

Lemma stored_embeds (dim : nat) (cs : list call) :
  embeds encode (run_calls encode cs (FAISSStore_init dim)).
Proof.
  unfold run_calls.
  generalize (FAISSStore_init dim) (eq_refl : embeds encode (FAISSStore_init dim)).
  induction cs as [| c cs IH]; intros s0 H0; simpl; [exact H0 |].
  apply IH, run_call_embeds, H0.
Qed.

(** X9: in every store reached from a new one by [add_text] and [search]
    calls, whatever the encoder, the vector at each position of the index is
    the embedding of the text at that position of the text list. *)
Theorem stored_vectors_embed_stored_texts (dim : nat) (cs : list call) :
  let s := run_calls encode cs (FAISSStore_init dim) in
  embeds encode s
  /\ forall i t, texts s !! i = Some t -> faiss.xb (index s) !! i = Some (encode t).
Proof.
  intros s.
  assert (He : embeds encode s) by apply stored_embeds.
  split; [exact He |].
  intros i t Ht. rewrite He, list_lookup_fmap, Ht. reflexivity.
Qed.

Lemma search_one_nearest (q : string) (s : FAISSStore) :
  length (encode q) = embedding_dim s ->
  lockstep s ->
  embeds encode s ->
  texts s <> [] ->
  exists t,
    search encode q 1 s = (Return [t], s)
    /\ t ∈ texts s
    /\ forall t', t' ∈ texts s ->
         (faiss.l2sqr (encode q) (encode t) <= faiss.l2sqr (encode q) (encode t'))%Q.
Proof.
  intros Hq (Hn & Hd & _) He Hne.
  rewrite search_result. unfold faiss.search.
  destruct (decide _) as [_ | Hbad]; [| destruct Hbad; congruence].
  change (0 <? 1)%Z with true. cbv iota. change (Z.to_nat 1) with 1.
  destruct (faiss.rank (faiss.scored (encode q) (faiss.xb (index s))))
    as [| p rest] eqn:Hr.
  { pose proof (rank_perm (faiss.scored (encode q) (faiss.xb (index s)))) as Hp.
    rewrite Hr in Hp. apply Permutation_length in Hp.
    rewrite scored_length in Hp. simpl in Hp. unfold faiss.ntotal in Hn.
    destruct (texts s); [contradiction | simpl in Hn; lia]. }
  pose proof (rank_head_least _ _ _ Hr) as Hleast.
  assert (Hpin : p ∈ faiss.scored (encode q) (faiss.xb (index s))).
  { rewrite <- rank_perm, Hr. left. }
  destruct (scored_lookup _ _ _ Hpin) as (y & Hy & Hfst).
  unfold embeds in He. rewrite He, list_lookup_fmap in Hy.
  destruct (texts s !! snd p) as [t |] eqn:Ht; simpl in Hy; [| discriminate].
  injection Hy as <-.
  exists t. split; [| split].
  - simpl. f_equal.
    replace (Z.of_nat p.2 <? Z.of_nat (length (texts s)))%Z with true
      by (symmetry; apply Z.ltb_lt; apply lookup_lt_Some in Ht; lia).
    rewrite (list_getitem_nonneg _ _ _ Ht). reflexivity.
  - eapply list_elem_of_lookup_2; eauto.
  - intros t' Hin. apply list_elem_of_lookup in Hin as [j Hj].
    assert (Hj' : faiss.xb (index s) !! j = Some (encode t'))
      by (rewrite He, list_lookup_fmap, Hj; reflexivity).
    pose proof (scored_elem (encode q) _ _ _ Hj') as Hin.
    rewrite Forall_forall in Hleast. specialize (Hleast _ Hin).
    simpl in Hleast. rewrite Hfst in Hleast. exact Hleast.
Qed.


(** X11: the round trip in any store.  With an encoder of the index
    dimension, after any calls followed by [add_text t], [search t 1]
    returns one stored text whose embedding equals the embedding of [t],
    component by component. *)
Theorem search_after_add_finds_equal_embedding (dim : nat) (cs : list call) (t : string) :
  (forall u, length (encode u) = dim) ->
  let s := run_calls encode (cs ++ [Add t]) (FAISSStore_init dim) in
  exists found,
    search encode t 1 s = (Return [found], s)
    /\ found ∈ texts s
    /\ Forall2 Qeq (encode t) (encode found).
Proof.
  intros Hdim s.
  assert (Ht : t ∈ texts s).
  { destruct (run_calls_texts encode dim Hdim (cs ++ [Add t]) (FAISSStore_init dim) eq_refl)
      as [Htx _].
    fold s in Htx. rewrite Htx. simpl. rewrite bind_app. apply elem_of_app. right.
    simpl. left. }
  assert (Hl : lockstep s) by (apply run_calls_lockstep, init_lockstep).
  destruct (run_calls_texts encode dim Hdim (cs ++ [Add t]) (FAISSStore_init dim) eq_refl)
    as [_ Hd].
  fold s in Hd.
  destruct (search_one_nearest t s) as (found & Hs & Hin & Hnear).
  - destruct Hl as (_ & Hde & _). rewrite <- Hde, Hd. apply Hdim.
  - exact Hl.
  - apply (stored_embeds dim (cs ++ [Add t])).
  - intros Hnil. rewrite Hnil in Ht. inversion Ht.
  - exists found. split; [exact Hs |]. split; [exact Hin |].
    apply l2sqr_zero; [rewrite !Hdim; reflexivity |].
    apply Qle_antisym; [| apply l2sqr_nonneg].
    rewrite <- (l2sqr_self (encode t)). apply Hnear, Ht.
Qed.

End store_extras.

Lemma scored_labels (x : embedding) (ys : list embedding) :
  snd <$> faiss.scored x ys = seq 0 (length ys).
Proof.
  apply list_eq. intros i. unfold faiss.scored.
  rewrite list_lookup_fmap, list_lookup_imap.
  destruct (ys !! i) as [y |] eqn:Hy; simpl.
  - symmetry. apply lookup_seq. split; [reflexivity | eapply lookup_lt_Some; eauto].
  - symmetry. apply lookup_seq_ge. apply lookup_ge_None. exact Hy.
Qed.

Lemma rank_scored_NoDup (x : embedding) (ys : list embedding) :
  NoDup (snd <$> faiss.rank (faiss.scored x ys)).
Proof. rewrite rank_perm, scored_labels. apply NoDup_seq. Qed.

Lemma gather_in_range (ts : list string) (positions : list nat) :
  Forall (fun i => i < length ts) positions ->
  exists rs,
    gather ts (Z.of_nat <$> positions) = Return rs
    /\ Forall2 (fun i r => ts !! i = Some r) positions rs.
Proof.
  induction positions as [| i positions IH]; intros Hall.
  - exists []. split; [reflexivity | constructor].
  - inversion Hall as [| ? ? Hi Hrest]; subst.
    destruct (IH Hrest) as (rs & Hg & Hrs).
    destruct (lookup_lt_is_Some_2 ts i Hi) as [t Ht].
    exists (t :: rs). split; [| constructor; assumption].
    rewrite fmap_cons. simpl.
    replace (Z.of_nat i <? Z.of_nat (length ts))%Z with true
      by (symmetry; apply Z.ltb_lt; lia).
    rewrite (list_getitem_nonneg _ _ _ Ht). simpl. rewrite Hg. reflexivity.
Qed.

Section store_extras_k.
Variable encode : string -> embedding.

(** X12: with enough texts there is no padding.  With an encoder of the
    index dimension, in every store reached from a new one, [search q k]
    with [1 <= k <= len(texts)] returns exactly [k] texts, the texts at [k]
    different positions of the store. *)
Theorem search_with_enough_texts (dim : nat) (cs : list call) (q : string) (k : Z) :
  (forall t, length (encode t) = dim) ->
  let s := run_calls encode cs (FAISSStore_init dim) in
  (1 <= k <= Z.of_nat (length (texts s)))%Z ->
  exists positions rs,
    search encode q k s = (Return rs, s)
    /\ length rs = Z.to_nat k
    /\ NoDup positions
    /\ Forall2 (fun i r => texts s !! i = Some r) positions rs.
Proof.
  intros Hdim s Hk.
  assert (Hl : lockstep s) by (apply run_calls_lockstep, init_lockstep).
  destruct (run_calls_texts encode dim Hdim cs (FAISSStore_init dim) eq_refl) as [_ Hd].
  fold s in Hd. destruct Hl as (Hn & _ & _). unfold faiss.ntotal in Hn.
  set (ranked := faiss.rank (faiss.scored (encode q) (faiss.xb (index s)))).
  assert (Hlen : length ranked = length (texts s)).
  { unfold ranked. rewrite rank_perm, scored_length. exact Hn. }
  set (positions := snd <$> take (Z.to_nat k) ranked).
  assert (Hrange : Forall (fun i => i < length (texts s)) positions).
  { apply Forall_fmap, Forall_forall. intros p Hp. simpl.
    apply elem_of_take in Hp as (i & Hp & _). apply list_elem_of_lookup_2 in Hp.
    rewrite <- Hn. apply (rank_scored_label (encode q)). exact Hp. }
  destruct (gather_in_range (texts s) positions Hrange) as (rs & Hg & Hrs).
  exists positions, rs. split; [| split; [| split]].
  - rewrite search_result. f_equal. unfold faiss.search.
    destruct (decide _) as [_ | Hbad]; [| destruct Hbad; rewrite Hd; apply Hdim].
    replace (0 <? k)%Z with true by (symmetry; apply Z.ltb_lt; lia).
    fold ranked. simpl.
    rewrite length_take_le by lia. rewrite Nat.sub_diag. simpl. rewrite app_nil_r.
    rewrite <- Hg. f_equal. unfold positions. rewrite <- list_fmap_compose. reflexivity.
  - apply Forall2_length in Hrs. rewrite <- Hrs. unfold positions.
    rewrite length_fmap, length_take_le by lia. reflexivity.
  - unfold positions. rewrite fmap_take.
    eapply sublist_NoDup; [apply rank_scored_NoDup | apply sublist_take].
  - exact Hrs.
Qed.

End store_extras_k.

(** ** More on the orchestrator and the tools *)

Section integration_extras.
Variable encode : string -> embedding.
Variable py_repr : pyval -> string.
Variable agent_run : string -> string.

Lemma process_query_step (dim : nat) (query : string) (user_profile : gmap string pyval)
    (s : FAISSStore) :
  (forall t, length (encode t) = dim) ->
  lockstep s ->
  faiss.d (index s) = dim ->
  texts s <> [] ->
  exists response,
    process_query encode py_repr agent_run query user_profile s
    = (Return response,
       mkStore (embedding_dim s)
         (faiss.mkIndex (faiss.d (index s)) (faiss.xb (index s) ++ [encode response]))
         (texts s ++ [response])).
Proof.
  intros Hdim Hl Hd Hne.
  assert (Hq : length (encode query) = embedding_dim s).
  { destruct Hl as (_ & Hde & _). rewrite <- Hde, Hd. apply Hdim. }
  destruct (search_one_nonempty encode query s Hq Hl Hne) as (snippet & _ & Hs).
  eexists. unfold process_query, bind. rewrite Hs.
  rewrite add_text_ok by (rewrite Hd; apply Hdim). reflexivity.
Qed.

(** X13: once the store holds a text, every [process_query] call adds
    exactly one.  With an encoder of the index dimension, from any store
    reached by [add_text] and [search] calls that holds at least one text,
    a sequence of [process_query] calls leaves the earlier texts where they
    were and appends one text per call; index and texts stay in lockstep. *)
Theorem process_query_appends_one_per_call (dim : nat) (cs : list call)
    (queries : list (string * gmap string pyval)) :
  (forall t, length (encode t) = dim) ->
  let s := run_calls encode cs (FAISSStore_init dim) in
  texts s <> [] ->
  let s' := run_queries encode py_repr agent_run queries s in
  exists answers,
    texts s' = texts s ++ answers
    /\ length answers = length queries
    /\ lockstep s'.
Proof.
  intros Hdim s Hne s'. subst s'.
  assert (Hl : lockstep s) by (apply run_calls_lockstep, init_lockstep).
  destruct (run_calls_texts encode dim Hdim cs (FAISSStore_init dim) eq_refl) as [_ Hd].
  fold s in Hd. clearbody s. clear cs.
  unfold run_queries. revert s Hne Hl Hd.
  induction queries as [| [q p] queries IH]; intros s Hne Hl Hd; simpl.
  - exists []. rewrite app_nil_r. auto.
  - destruct (process_query_step dim q p s Hdim Hl Hd Hne) as [r Hr].
    rewrite Hr. simpl.
    match goal with |- context [fold_left _ queries ?s1] => set (s1' := s1) end.
    assert (Hl1 : lockstep s1').
    { destruct Hl as (Hn & Hde & Hv). unfold lockstep, faiss.ntotal in Hn |- *.
      subst s1'. simpl.
      rewrite !length_app, Hn. split; [reflexivity |]. split; [exact Hde |].
      apply Forall_app. split; [exact Hv |].
      constructor; [rewrite <- Hde, Hd; apply Hdim | constructor]. }
    destruct (IH s1') as (answers & Htexts & Hlen & Hlock).
    + subst s1'. simpl. intros Hnil. apply app_eq_nil in Hnil as [_ Hnil]. discriminate.
    + exact Hl1.
    + subst s1'. simpl. exact Hd.
    + exists (r :: answers). rewrite Htexts. subst s1'. simpl.
      rewrite <- app_assoc. simpl. auto.
Qed.

End integration_extras.

Section weather_extras.
Variable py_repr : pyval -> string.
Variable getenv : string -> option string.
Variable requests_get : string -> outcome Response.

(** X14: what the weather tool does not catch.  A failure of the HTTP
    client itself, a 200 answer whose body is not JSON, and a 200 answer
    whose JSON lacks the [weather] entry, has an empty [weather] list, or
    lacks [main], each leave [_run] with the exception raised (the client's,
    the decoder's, [KeyError] or [IndexError]); none is turned into the
    "unable to fetch" sentence. *)
Theorem weather_tool_failures_propagate (query : string) :
  (forall e, requests_get (OpenWeatherTool_url getenv query) = Raise e ->
     OpenWeatherTool_run py_repr getenv requests_get query = Raise e)
  /\ (forall e, requests_get (OpenWeatherTool_url getenv query)
                = Return (mkResponse 200 (Raise e)) ->
        OpenWeatherTool_run py_repr getenv requests_get query = Raise e)
  /\ (forall entries,
        requests_get (OpenWeatherTool_url getenv query)
        = Return (mkResponse 200 (Return (PyDict entries))) ->
        (dict_get entries "weather" = None ->
           OpenWeatherTool_run py_repr getenv requests_get query
           = Raise (KeyError "weather"))
        /\ (dict_get entries "weather" = Some (PyList []) ->
              OpenWeatherTool_run py_repr getenv requests_get query = Raise IndexError)
        /\ (forall first rest weather_desc,
              dict_get entries "weather" = Some (PyList (PyDict first :: rest)) ->
              dict_get first "description" = Some weather_desc ->
              dict_get entries "main" = None ->
              OpenWeatherTool_run py_repr getenv requests_get query
              = Raise (KeyError "main"))).
Proof.
  unfold OpenWeatherTool_run. split; [| split].
  - intros e He. rewrite He. reflexivity.
  - intros e He. rewrite He. reflexivity.
  - intros entries He. rewrite He. simpl. split; [| split].
    + intros Hw. rewrite Hw. reflexivity.
    + intros Hw. rewrite Hw. reflexivity.
    + intros first rest weather_desc Hw Hd Hm. rewrite Hw. simpl.
      unfold list_getitem. simpl. rewrite Hd. simpl. rewrite Hm. reflexivity.
Qed.

End weather_extras.

(** ** More on tokens and handlers *)

Section main_extras.
Variable encode : string -> embedding.
Variable py_repr : pyval -> string.
Variable agent_run : string -> string.
Variable hashpw : string -> string -> outcome string.
Variable checkpw : string -> string -> outcome bool.
Variable hmac : string -> string * gmap string pyval -> string.
Variable int_conv : pyval -> option Z.
Variable SECRET_KEY : string.
Variable gen_id : list User.t -> string.

Lemma get_current_user_intro (token : jwt.token) (w : world)
    (payload : gmap string pyval) (u : User.t) (rest : list User.t) :
  jwt.decode hmac int_conv token SECRET_KEY [ALGORITHM] (utcnow w) = Return payload ->
  default PyNone (payload !! "sub") <> PyNone ->
  filter (fun r => User.email r = py_str py_repr (default PyNone (payload !! "sub")))
         (users w) = u :: rest ->
  get_current_user py_repr hmac int_conv SECRET_KEY token w = (Return u, w).
Proof.
  intros Hdec Hsub Hsel.
  unfold get_current_user, bind, get. cbv beta iota. rewrite Hdec.
  destruct (default PyNone (payload !! "sub")) eqn:Hv; [contradiction | ..];
    unfold users_select_eq_email, bind, get, ret; simpl; simpl in Hsel;
    rewrite Hsel; reflexivity.
Qed.

Lemma get_current_user_elim (token : jwt.token) (w : world) (u : User.t) :
  fst (get_current_user py_repr hmac int_conv SECRET_KEY token w) = Return u ->
  exists payload rest,
    jwt.decode hmac int_conv token SECRET_KEY [ALGORITHM] (utcnow w) = Return payload
    /\ default PyNone (payload !! "sub") <> PyNone
    /\ filter (fun r => User.email r = py_str py_repr (default PyNone (payload !! "sub")))
              (users w) = u :: rest.
Proof.
  unfold get_current_user, bind, get, raise. cbv beta iota.
  destruct (jwt.decode _ _ _ _ _) as [payload | e].
  - intros H. exists payload.
    destruct (default PyNone (payload !! "sub")) eqn:Hv;
      [simpl in H; discriminate | ..];
      unfold users_select_eq_email, bind, get, ret, raise in H; simpl in H;
      (destruct (filter _ _) as [| r rest] eqn:Hf; simpl in H; [discriminate |]);
      injection H as <-; exists rest; (split; [reflexivity |]);
      (split; [discriminate | first [exact Hf | reflexivity]]).
  - destruct e; simpl; discriminate.
Qed.

Lemma get_current_user_state (token : jwt.token) (w : world) :
  snd (get_current_user py_repr hmac int_conv SECRET_KEY token w) = w.
Proof. apply get_current_user_reads. Qed.

(** Claims without registered names other than a string [sub] pass every
    check but the expiry. *)
Lemma plain_claims_valid (data : gmap string pyval) (exp now : Z) :
  data !! "iat" = None ->
  data !! "nbf" = None ->
  data !! "aud" = None ->
  data !! "jti" = None ->
  (data !! "sub" = None \/ exists subject, data !! "sub" = Some (PyStr subject)) ->
  jwt.validate_claims int_conv (<["exp" := PyInt exp]> data) now
  = if (exp <=? now)%Z then Raise (PyJWTError ExpiredSignatureError) else Return tt.
Proof.
  intros Hiat Hnbf Haud Hjti Hsub.
  unfold jwt.validate_claims, jwt.validate_iat, jwt.validate_nbf, jwt.validate_exp,
    jwt.validate_aud, jwt.validate_sub, jwt.validate_jti.
  rewrite lookup_insert_eq.
  rewrite !lookup_insert_ne by discriminate.
  rewrite Hiat, Hnbf, Haud, Hjti. simpl.
  destruct (exp <=? now)%Z; simpl; [reflexivity |].
  destruct Hsub as [-> | [subject ->]]; reflexivity.
Qed.

(** X15: the lifetime of a token.  [create_access_token] changes nothing
    and signs the given claims with [exp] set (an [exp] already among them
    is replaced) to the clock plus the lifetime: the given one if it is not
    zero, 30 minutes if none or a zero one is given.  When the given claims
    carry none of [iat], [nbf], [aud] and [jti], and [sub] is absent or a
    string, the token decodes to those claims at every time before [exp],
    and is expired from [exp] on. *)
Theorem access_token_lifetime (data : gmap string pyval) (expires_delta : option Z)
    (lifetime : Z) (w : world) :
  (expires_delta = Some lifetime /\ lifetime <> 0%Z)
  \/ ((expires_delta = None \/ expires_delta = Some 0%Z)
      /\ lifetime = timedelta_minutes ACCESS_TOKEN_EXPIRE_MINUTES) ->
  data !! "iat" = None ->
  data !! "nbf" = None ->
  data !! "aud" = None ->
  data !! "jti" = None ->
  (data !! "sub" = None \/ exists subject, data !! "sub" = Some (PyStr subject)) ->
  exists token,
    create_access_token hmac SECRET_KEY data expires_delta w = (Return token, w)
    /\ (forall now, (now < utcnow w + lifetime)%Z ->
          jwt.decode hmac int_conv token SECRET_KEY [ALGORITHM] now
          = Return (<["exp" := PyInt (utcnow w + lifetime)]> data))
    /\ (forall now, (utcnow w + lifetime <= now)%Z ->
          jwt.decode hmac int_conv token SECRET_KEY [ALGORITHM] now
          = Raise (PyJWTError ExpiredSignatureError)).
Proof.
  intros Hcase Hiat Hnbf Haud Hjti Hsub.
  assert (Htok : create_access_token hmac SECRET_KEY data expires_delta w
                 = (Return (jwt.encode hmac (<["exp" := PyInt (utcnow w + lifetime)]> data)
                              SECRET_KEY ALGORITHM), w)).
  { unfold create_access_token, bind, get, ret. cbv beta iota.
    destruct Hcase as [[-> Hnz] | [[-> | ->] ->]].
    - destruct (decide _); [contradiction | reflexivity].
    - reflexivity.
    - reflexivity. }
  eexists. split; [exact Htok |]. split.
  - intros now Hnow. apply decode_encode.
    rewrite (plain_claims_valid data _ now Hiat Hnbf Haud Hjti Hsub).
    replace (utcnow w + lifetime <=? now)%Z with false
      by (symmetry; apply Z.leb_gt; lia).
    reflexivity.
  - intros now Hnow. unfold jwt.decode, jwt.encode.
    destruct (decide (ALGORITHM ∈ [ALGORITHM])) as [_ | Hno]; [| destruct Hno; left].
    destruct (decide _) as [_ | Hno]; [| destruct Hno; reflexivity].
    rewrite (plain_claims_valid data _ now Hiat Hnbf Haud Hjti Hsub).
    replace (utcnow w + lifetime <=? now)%Z with true
      by (symmetry; apply Z.leb_le; lia).
    reflexivity.
Qed.


(** X17: a login opens the profile.  When [login] succeeds for a record,
    its token, presented at any later moment before 30 minutes have passed
    and while the table has the same rows, makes [read_profile] return that
    record; the request changes nothing.  Whatever else happened on the
    server in between plays no part. *)
Theorem login_then_read_profile (w later : world) (form_data : OAuth2PasswordRequestForm.t)
    (user : User.t) (rest : list User.t) :
  filter (fun u => User.email u = OAuth2PasswordRequestForm.username form_data) (users w)
  = user :: rest ->
  checkpw (OAuth2PasswordRequestForm.password form_data) (User.hashed_password user)
  = Return true ->
  users later = users w ->
  (utcnow later < utcnow w + timedelta_minutes 30)%Z ->
  exists access_token,
    fst (login checkpw hmac SECRET_KEY form_data w) = Return (Token.mk access_token "bearer")
    /\ read_profile py_repr hmac int_conv SECRET_KEY access_token later = (Return user, later).
Proof.
  intros Hsel Hpw Husers Hnow.
  rewrite (login_accepts checkpw hmac SECRET_KEY w form_data user rest Hsel Hpw).
  eexists. split; [reflexivity |].
  assert (Hemail : User.email user = OAuth2PasswordRequestForm.username form_data).
  { assert (Hin : user ∈ filter
      (fun u => User.email u = OAuth2PasswordRequestForm.username form_data) (users w))
      by (rewrite Hsel; left).
    apply list_elem_of_filter in Hin. exact (proj1 Hin). }
  unfold read_profile.
  erewrite bind_return; [reflexivity |].
  eapply get_current_user_intro.
  - apply decode_encode, login_claims_valid. unfold timedelta_minutes in Hnow. lia.
  - rewrite lookup_insert_ne by discriminate. rewrite lookup_singleton_eq. discriminate.
  - rewrite lookup_insert_ne by discriminate. rewrite lookup_singleton_eq. simpl.
    rewrite Husers, Hemail. exact Hsel.
Qed.

Lemma update_profile_accepted (updated_profile : UserProfile.t) (token : jwt.token)
    (w : world) (current_user : User.t) :
  fst (get_current_user py_repr hmac int_conv SECRET_KEY token w) = Return current_user ->
  writes_refused w = false ->
  update_profile py_repr hmac int_conv SECRET_KEY updated_profile token w
  = (Raise (AttributeError "error"),
     with_users w
       ((fun u => if decide (User.email u = User.email current_user)
                  then set_profile (UserProfile.full_name updated_profile)
                         (UserProfile.travel_preferences updated_profile) u
                  else u) <$> users w)).
Proof.
  intros Hg Hr.
  pose proof (update_profile_cases py_repr hmac int_conv SECRET_KEY updated_profile token w)
    as Hc.
  cbv zeta in Hc.
  destruct (get_current_user py_repr hmac int_conv SECRET_KEY token w) as [[cu | e] w1];
    simpl in Hg; [| discriminate].
  injection Hg as ->. rewrite Hr in Hc. exact Hc.
Qed.

Lemma get_current_user_after_update (full_name : option string)
    (travel_preferences : list (string * pyval)) (token : jwt.token) (w : world)
    (current_user : User.t) :
  fst (get_current_user py_repr hmac int_conv SECRET_KEY token w) = Return current_user ->
  get_current_user py_repr hmac int_conv SECRET_KEY token
    (with_users w
       ((fun u => if decide (User.email u = User.email current_user)
                  then set_profile full_name travel_preferences u else u) <$> users w))
  = (Return (set_profile full_name travel_preferences current_user),
     with_users w
       ((fun u => if decide (User.email u = User.email current_user)
                  then set_profile full_name travel_preferences u else u) <$> users w)).
Proof.
  intros Hg.
  destruct (get_current_user_elim token w current_user Hg) as (payload & rest & Hd & Hs & Hf).
  assert (He : User.email current_user
               = py_str py_repr (default PyNone (payload !! "sub"))).
  { assert (Hin : current_user ∈ filter
      (fun r => User.email r = py_str py_repr (default PyNone (payload !! "sub")))
      (users w)) by (rewrite Hf; left).
    apply list_elem_of_filter in Hin. exact (proj1 Hin). }
  eapply get_current_user_intro with (payload := payload).
  - exact Hd.
  - exact Hs.
  - simpl. rewrite <- He. rewrite filter_after_update. rewrite He, Hf. reflexivity.
Qed.

(** X18: an update is what the next read returns.  When the token resolves
    to a user and the table accepts the write, [update_profile] writes the
    body's [full_name] and [travel_preferences] into the user's record and
    then fails on [response.error], which the result of [execute()] does not
    have: the client sees status 500.  The write stands: a following
    [read_profile] with the same token returns the updated record. *)
Theorem update_then_read_profile (updated_profile : UserProfile.t) (token : jwt.token)
    (w : world) (current_user : User.t) :
  fst (get_current_user py_repr hmac int_conv SECRET_KEY token w) = Return current_user ->
  writes_refused w = false ->
  let updated := set_profile (UserProfile.full_name updated_profile)
                   (UserProfile.travel_preferences updated_profile) current_user in
  let w' := snd (update_profile py_repr hmac int_conv SECRET_KEY updated_profile token w) in
  fst (update_profile py_repr hmac int_conv SECRET_KEY updated_profile token w)
  = Raise (AttributeError "error")
  /\ http_status (fst (update_profile py_repr hmac int_conv SECRET_KEY updated_profile
                         token w)) = 500%Z
  /\ read_profile py_repr hmac int_conv SECRET_KEY token w' = (Return updated, w').
Proof.
  intros Hg Hr updated w'. subst w'.
  rewrite (update_profile_accepted updated_profile token w current_user Hg Hr). simpl.
  split; [reflexivity |]. split; [reflexivity |].
  unfold read_profile. erewrite bind_return; [reflexivity |].
  apply get_current_user_after_update. exact Hg.
Qed.

(** X19: a profile update is idempotent.  Sending the same update a second
    time, with the same token, returns what the first returned and leaves
    the state the first left; this holds for every token, body and state,
    also when the update is refused. *)
Theorem update_profile_idempotent (updated_profile : UserProfile.t) (token : jwt.token)
    (w : world) :
  let once := update_profile py_repr hmac int_conv SECRET_KEY updated_profile token w in
  update_profile py_repr hmac int_conv SECRET_KEY updated_profile token (snd once) = once.
Proof.
  intros once. subst once.
  pose proof (update_profile_cases py_repr hmac int_conv SECRET_KEY updated_profile token w) as Hc.
  cbv zeta in Hc.
  destruct (get_current_user py_repr hmac int_conv SECRET_KEY token w) as [[cu | e] w1] eqn:Hg.
  - destruct (writes_refused w) eqn:Hr.
    + rewrite Hc. simpl. rewrite Hc. reflexivity.
    + rewrite Hc. simpl.
      assert (Hg1 : fst (get_current_user py_repr hmac int_conv SECRET_KEY token w) = Return cu)
        by (rewrite Hg; reflexivity).
      pose proof (get_current_user_after_update (UserProfile.full_name updated_profile)
        (UserProfile.travel_preferences updated_profile) token w cu Hg1) as Hg2.
      rewrite (update_profile_accepted updated_profile token _ _
                 ltac:(rewrite Hg2; reflexivity) Hr).
      simpl. f_equal. unfold with_users. simpl. f_equal.
      rewrite <- list_fmap_compose. apply list_fmap_ext. intros i u _. simpl.
      destruct (decide (User.email u = User.email cu)) as [He | He]; simpl.
      * destruct (decide _) as [_ | Hno]; [reflexivity | destruct Hno; exact He].
      * destruct (decide _) as [Hyes | _]; [contradiction | reflexivity].
  - rewrite Hc. simpl. rewrite Hc. reflexivity.
Qed.


Lemma get_current_user_returns (token : jwt.token) (w : world) (u : User.t) :
  fst (get_current_user py_repr hmac int_conv SECRET_KEY token w) = Return u ->
  get_current_user py_repr hmac int_conv SECRET_KEY token w = (Return u, w).
Proof.
  intros H. pose proof (get_current_user_state token w) as Hs.
  destruct (get_current_user py_repr hmac int_conv SECRET_KEY token w) as [r w1].
  simpl in H, Hs. subst. reflexivity.
Qed.

(** X20: an empty query.  For a caller whose token resolves to a user,
    [chat] with the empty query raises status 400 with detail
    [Query is required.] and changes nothing; for a caller whose token is
    refused the answer is that refusal, empty query or not, since the token
    is checked first. *)
Theorem chat_requires_a_query (token : jwt.token) (w : world) :
  (forall current_user,
     fst (get_current_user py_repr hmac int_conv SECRET_KEY token w) = Return current_user ->
     chat encode py_repr agent_run hmac int_conv SECRET_KEY (ChatQuery.mk "") token w
     = (Raise (HTTPException 400 "Query is required."), w))
  /\ (forall e query_data,
        fst (get_current_user py_repr hmac int_conv SECRET_KEY token w) = Raise e ->
        chat encode py_repr agent_run hmac int_conv SECRET_KEY query_data token w = (Raise e, w)).
Proof.
  split.
  - intros cu Hg. apply get_current_user_returns in Hg.
    unfold chat. rewrite (bind_return _ _ _ _ _ Hg). reflexivity.
  - intros e q Hg. pose proof (get_current_user_state token w) as Hs.
    unfold chat. apply bind_raise.
    destruct (get_current_user py_repr hmac int_conv SECRET_KEY token w) as [r w1].
    simpl in Hg, Hs. subst. reflexivity.
Qed.

(** X21: a chat on a filled memory.  With an encoder of the index
    dimension, for a caller whose token resolves to a user, a non-empty
    query, and a memory store (reached by [add_text] and [search] calls)
    that holds at least one text: [chat] returns the agent's answer to the
    prompt built from the user's email, name and preferences, the query and
    one stored text; that answer is the one text appended to the memory; the
    table and the clock are as before. *)
Theorem chat_on_filled_memory (dim : nat) (cs : list call) (token : jwt.token)
    (w : world) (current_user : User.t) (query_data : ChatQuery.t) :
  (forall t, length (encode t) = dim) ->
  fst (get_current_user py_repr hmac int_conv SECRET_KEY token w) = Return current_user ->
  ChatQuery.query query_data <> "" ->
  memory w = run_calls encode cs (FAISSStore_init dim) ->
  texts (memory w) <> [] ->
  exists snippet,
    snippet ∈ texts (memory w)
    /\ let user_profile : gmap string pyval :=
         {[ "email" := PyStr (User.email current_user);
            "full_name" := opt_str (User.full_name current_user);
            "travel_preferences" := PyDict (User.travel_preferences current_user) ]} in
       let response :=
         agent_run (pre_prompt py_repr user_profile (ChatQuery.query query_data) [snippet]) in
       let after := chat encode py_repr agent_run hmac int_conv SECRET_KEY query_data token w in
       fst after = Return (ChatResponse.mk response)
       /\ texts (memory (snd after)) = texts (memory w) ++ [response]
       /\ users (snd after) = users w
       /\ utcnow (snd after) = utcnow w.
Proof.
  intros Hdim Hg Hq Hm Hne.
  assert (Hl : lockstep (memory w))
    by (rewrite Hm; apply run_calls_lockstep, init_lockstep).
  assert (Hd : faiss.d (index (memory w)) = dim).
  { rewrite Hm.
    apply (run_calls_texts encode dim Hdim cs (FAISSStore_init dim) eq_refl). }
  assert (Hqd : length (encode (ChatQuery.query query_data)) = embedding_dim (memory w)).
  { destruct Hl as (_ & Hde & _). rewrite <- Hde, Hd. apply Hdim. }
  destruct (search_one_nonempty encode (ChatQuery.query query_data) (memory w) Hqd Hl Hne)
    as (snippet & Hin & Hs).
  exists snippet. split; [exact Hin |]. intros user_profile response after.
  apply get_current_user_returns in Hg.
  assert (Hchat : after
    = (Return (ChatResponse.mk response),
       with_memory w
         (mkStore (embedding_dim (memory w))
            (faiss.mkIndex (faiss.d (index (memory w)))
               (faiss.xb (index (memory w)) ++ [encode response]))
            (texts (memory w) ++ [response])))).
  { subst after. unfold chat. rewrite (bind_return _ _ _ _ _ Hg).
    destruct (decide _) as [He | _]; [contradiction |].
    unfold bind at 1. unfold on_memory, process_query. unfold bind at 1.
    rewrite Hs. unfold bind at 1.
    rewrite add_text_ok by (rewrite Hd; apply Hdim). reflexivity. }
  rewrite Hchat. simpl. auto.
Qed.

Lemma signup_users (w : world) (user : UserSignup.t) :
  users (snd (signup hashpw gen_id user w)) = users w
  \/ (filter (fun u => User.email u = UserSignup.email user) (users w) = []
      /\ exists row,
           User.email row = UserSignup.email user
           /\ users (snd (signup hashpw gen_id user w)) = users w ++ [row]).
Proof.
  unfold signup, bind, users_select_eq_email, get, ret, raise. simpl.
  destruct (filter _ _) as [| u rest] eqn:Hf; [| left; reflexivity].
  unfold get_password_hash, gensalt, bind, get, ret, put, lift.
  destruct (salts w) as [| s ss]; simpl;
    (destruct (hashpw _ _) as [hashed | e]; [| left; reflexivity]);
    unfold users_insert, bind, get, ret, put, lift, raise; simpl;
    (destruct (writes_refused w); simpl; [left; reflexivity |]);
    right; (split; [reflexivity |]); eexists; (split; [| reflexivity]); reflexivity.
Qed.

Lemma signup_memory_clock (w : world) (user : UserSignup.t) :
  memory (snd (signup hashpw gen_id user w)) = memory w
  /\ utcnow (snd (signup hashpw gen_id user w)) = utcnow w.
Proof.
  unfold signup, bind, users_select_eq_email, get, ret, raise. simpl.
  destruct (filter _ _) as [| u rest]; [| split; reflexivity].
  unfold get_password_hash, gensalt, bind, get, ret, put, lift.
  destruct (salts w) as [| s ss]; simpl;
    (destruct (hashpw _ _) as [hashed | e]; [| split; reflexivity]);
    unfold users_insert, bind, get, ret, put, lift, raise; simpl;
    destruct (writes_refused w); split; reflexivity.
Qed.

(** X22: emails stay unique.  If no two records of the table share an
    email, the same holds after any [signup] and after any
    [update_profile], whatever their arguments and outcome. *)
Theorem emails_stay_unique (w : world) (user : UserSignup.t)
    (updated_profile : UserProfile.t) (token : jwt.token) :
  emails_unique w ->
  emails_unique (snd (signup hashpw gen_id user w))
  /\ emails_unique (snd (update_profile py_repr hmac int_conv SECRET_KEY updated_profile token w)).
Proof.
  unfold emails_unique. intros Hu. split.
  - destruct (signup_users w user) as [-> | (Hf & row & He & ->)]; [exact Hu |].
    rewrite fmap_app. apply NoDup_app. split; [exact Hu |]. split.
    + intros e Hin Hrow. simpl in Hrow. apply list_elem_of_singleton in Hrow. subst e.
      apply list_elem_of_fmap in Hin as (u & Heq & Hin).
      assert (Hmem : u ∈ filter (fun u => User.email u = UserSignup.email user) (users w))
        by (apply list_elem_of_filter; split; [congruence | exact Hin]).
      rewrite Hf in Hmem. inversion Hmem.
    + simpl. apply NoDup_singleton.
  - pose proof (update_profile_cases py_repr hmac int_conv SECRET_KEY updated_profile token w) as Hc.
    cbv zeta in Hc.
    destruct (get_current_user py_repr hmac int_conv SECRET_KEY token w) as [[cu | e] w1].
    + destruct (writes_refused w); rewrite Hc; simpl; [exact Hu |].
      rewrite <- list_fmap_compose.
      erewrite list_fmap_ext; [exact Hu |]. intros i u _. simpl.
      destruct (decide _); reflexivity.
    + rewrite Hc. exact Hu.
Qed.

Lemma chat_state (query_data : ChatQuery.t) (token : jwt.token) (w : world) :
  exists m,
    snd (chat encode py_repr agent_run hmac int_conv SECRET_KEY query_data token w)
    = with_memory w m.
Proof.
  pose proof (get_current_user_state token w) as Hs.
  unfold chat. unfold bind at 1.
  destruct (get_current_user py_repr hmac int_conv SECRET_KEY token w) as [[u | e] w1];
    simpl in Hs; subst w1.
  - destruct (decide _).
    + exists (memory w). destruct w; reflexivity.
    + unfold bind, on_memory, ret.
      destruct (process_query encode py_repr agent_run _ _ _) as [[r | e] m];
        exists m; reflexivity.
  - exists (memory w). destruct w; reflexivity.
Qed.

(** X23: what the handlers leave alone.  [login] and [read_profile] change
    nothing at all, whatever they answer; [chat] never changes the table,
    the clock or the write switch; [signup] never changes the memory store
    or the clock and leaves every existing record in place, adding at most
    one at the end. *)
Theorem handlers_frame (w : world) (token : jwt.token)
    (form_data : OAuth2PasswordRequestForm.t) (query_data : ChatQuery.t)
    (user : UserSignup.t) :
  snd (login checkpw hmac SECRET_KEY form_data w) = w
  /\ snd (read_profile py_repr hmac int_conv SECRET_KEY token w) = w
  /\ (let w' := snd (chat encode py_repr agent_run hmac int_conv SECRET_KEY query_data token w) in
      users w' = users w /\ utcnow w' = utcnow w /\ writes_refused w' = writes_refused w)
  /\ (let w' := snd (signup hashpw gen_id user w) in
      memory w' = memory w /\ utcnow w' = utcnow w
      /\ exists added, users w' = users w ++ added /\ length added <= 1).
Proof.
  split; [| split; [| split]].
  - destruct (filter (fun u => User.email u = OAuth2PasswordRequestForm.username form_data)
                (users w)) as [| u rest] eqn:Hsel.
    + rewrite (login_unknown_email checkpw hmac SECRET_KEY w form_data Hsel). reflexivity.
    + rewrite (login_verdict checkpw hmac SECRET_KEY w form_data u rest Hsel).
      destruct (checkpw _ _) as [[|] | e]; reflexivity.
  - pose proof (get_current_user_state token w) as Hs.
    unfold read_profile, bind, ret.
    destruct (get_current_user py_repr hmac int_conv SECRET_KEY token w) as [[u | e] w1];
      simpl in Hs; subst; reflexivity.
  - destruct (chat_state query_data token w) as [m ->]. simpl. auto.
  - destruct (signup_memory_clock w user) as [Hm Hc].
    split; [exact Hm |]. split; [exact Hc |].
    destruct (signup_users w user) as [-> | (_ & row & _ & ->)].
    + exists []. rewrite app_nil_r. simpl. auto.
    + exists [row]. simpl. auto.
Qed.

End main_extras.

(** ** The further theorems at concrete inputs *)

Lemma search_after_add_finds_equal_embedding_witness :
  exists found,
    search sample.encode "hello" 1
      (run_calls sample.encode ([Add "a"; Search "a" 2] ++ [Add "hello"]) (FAISSStore_init 2))
    = (Return [found],
       run_calls sample.encode ([Add "a"; Search "a" 2] ++ [Add "hello"]) (FAISSStore_init 2))
    /\ found ∈ ["a"; "hello"]
    /\ Forall2 Qeq (sample.encode "hello") (sample.encode found).
Proof.
  apply (search_after_add_finds_equal_embedding sample.encode 2 [Add "a"; Search "a" 2]
           "hello").
  reflexivity.
Defined.

Lemma search_with_enough_texts_witness :
  exists positions rs,
    search sample.encode "xx" 2
      (run_calls sample.encode [Add "a"; Add "bb"; Add "cccc"] (FAISSStore_init 2))
    = (Return rs,
       run_calls sample.encode [Add "a"; Add "bb"; Add "cccc"] (FAISSStore_init 2))
    /\ length rs = 2
    /\ NoDup positions
    /\ Forall2 (fun i r => ["a"; "bb"; "cccc"] !! i = Some r) positions rs.
Proof.
  apply (search_with_enough_texts sample.encode 2 [Add "a"; Add "bb"; Add "cccc"] "xx" 2).
  - reflexivity.
  - simpl. lia.
Defined.

Lemma process_query_appends_one_per_call_witness :
  exists answers,
    texts (run_queries sample.encode sample.py_repr sample.agent_run
             [("weather in Paris", ∅); ("hotels in Rome", ∅)]
             (run_calls sample.encode [Add "Visit the Louvre."] (FAISSStore_init 2)))
    = ["Visit the Louvre."] ++ answers
    /\ length answers = 2
    /\ lockstep (run_queries sample.encode sample.py_repr sample.agent_run
                   [("weather in Paris", ∅); ("hotels in Rome", ∅)]
                   (run_calls sample.encode [Add "Visit the Louvre."] (FAISSStore_init 2))).
Proof.
  apply (process_query_appends_one_per_call sample.encode sample.py_repr sample.agent_run
           2 [Add "Visit the Louvre."] [("weather in Paris", ∅); ("hotels in Rome", ∅)]).
  - reflexivity.
  - discriminate.
Defined.

Lemma weather_tool_failures_propagate_witness :
  OpenWeatherTool_run sample.py_repr sample.getenv
    (sample.requests_get 200 (Return (PyDict [("cod", PyInt 200)]))) "Paris"
  = Raise (KeyError "weather")
  /\ OpenWeatherTool_run sample.py_repr sample.getenv
       (sample.requests_get 200 (Return (PyDict [("weather", PyList [])]))) "Paris"
     = Raise IndexError
  /\ OpenWeatherTool_run sample.py_repr sample.getenv
       (sample.requests_get 200 (Raise JSONDecodeError)) "Paris"
     = Raise JSONDecodeError.
Proof.
  split; [| split].
  - apply (proj1 (proj2 (proj2 (weather_tool_failures_propagate sample.py_repr sample.getenv
             (sample.requests_get 200 (Return (PyDict [("cod", PyInt 200)]))) "Paris"))
             [("cod", PyInt 200)] eq_refl)).
    reflexivity.
  - apply (proj1 (proj2 (proj2 (proj2 (weather_tool_failures_propagate sample.py_repr
             sample.getenv
             (sample.requests_get 200 (Return (PyDict [("weather", PyList [])]))) "Paris"))
             [("weather", PyList [])] eq_refl))).
    reflexivity.
  - apply (proj1 (proj2 (weather_tool_failures_propagate sample.py_repr sample.getenv
             (sample.requests_get 200 (Raise JSONDecodeError)) "Paris"))).
    reflexivity.
Defined.

Lemma access_token_lifetime_witness :
  exists token,
    create_access_token sample.hmac sample.SECRET_KEY {[ "sub" := PyStr "a@x.com" ]}
      (Some 0%Z) sample.w0
    = (Return token, sample.w0)
    /\ (forall now, (now < 1000 + timedelta_minutes ACCESS_TOKEN_EXPIRE_MINUTES)%Z ->
          jwt.decode sample.hmac sample.int_conv token sample.SECRET_KEY [ALGORITHM] now
          = Return (<["exp" := PyInt (1000 + timedelta_minutes ACCESS_TOKEN_EXPIRE_MINUTES)]>
                      {[ "sub" := PyStr "a@x.com" ]}))
    /\ (forall now, (1000 + timedelta_minutes ACCESS_TOKEN_EXPIRE_MINUTES <= now)%Z ->
          jwt.decode sample.hmac sample.int_conv token sample.SECRET_KEY [ALGORITHM] now
          = Raise (PyJWTError ExpiredSignatureError)).
Proof.
  apply (access_token_lifetime sample.hmac sample.int_conv sample.SECRET_KEY {[ "sub" := PyStr "a@x.com" ]}
           (Some 0%Z) (timedelta_minutes ACCESS_TOKEN_EXPIRE_MINUTES) sample.w0).
  - right. split; [right; reflexivity | reflexivity].
  - reflexivity.
  - reflexivity.
  - reflexivity.
  - reflexivity.
  - right. exists "a@x.com". reflexivity.
Defined.


Lemma login_then_read_profile_witness :
  exists access_token,
    fst (login sample.checkpw sample.hmac sample.SECRET_KEY
           (OAuth2PasswordRequestForm.mk "a@x.com" "pw") sample.w0)
    = Return (Token.mk access_token "bearer")
    /\ read_profile sample.py_repr sample.hmac sample.int_conv sample.SECRET_KEY access_token sample.w1
       = (Return sample.alice, sample.w1).
Proof.
  apply (login_then_read_profile sample.py_repr sample.checkpw sample.hmac sample.int_conv sample.SECRET_KEY
           sample.w0 sample.w1 (OAuth2PasswordRequestForm.mk "a@x.com" "pw")
           sample.alice []);
    reflexivity.
Defined.

Lemma update_then_read_profile_witness :
  let body := UserProfile.mk None "a@x.com" (Some "Alice") [("pace", PyStr "slow")] in
  let updated := set_profile (Some "Alice") [("pace", PyStr "slow")] sample.alice in
  let w' := snd (update_profile sample.py_repr sample.hmac sample.int_conv sample.SECRET_KEY
                   body sample.alice_token sample.w0) in
  fst (update_profile sample.py_repr sample.hmac sample.int_conv sample.SECRET_KEY body
         sample.alice_token sample.w0) = Raise (AttributeError "error")
  /\ http_status (fst (update_profile sample.py_repr sample.hmac sample.int_conv
                         sample.SECRET_KEY body sample.alice_token sample.w0)) = 500%Z
  /\ read_profile sample.py_repr sample.hmac sample.int_conv sample.SECRET_KEY
       sample.alice_token w'
     = (Return updated, w').
Proof.
  apply (update_then_read_profile sample.py_repr sample.hmac sample.int_conv
           sample.SECRET_KEY
           (UserProfile.mk None "a@x.com" (Some "Alice") [("pace", PyStr "slow")])
           sample.alice_token sample.w0 sample.alice);
    reflexivity.
Defined.

Lemma chat_requires_a_query_witness :
  chat sample.encode sample.py_repr sample.agent_run sample.hmac sample.int_conv sample.SECRET_KEY
    (ChatQuery.mk "") sample.alice_token sample.w1
  = (Raise (HTTPException 400 "Query is required."), sample.w1)
  /\ chat sample.encode sample.py_repr sample.agent_run sample.hmac sample.int_conv sample.SECRET_KEY
       (ChatQuery.mk "") (jwt.Garbage "abc") sample.w1
     = (Raise credentials_exception, sample.w1).
Proof.
  split.
  - apply (proj1 (chat_requires_a_query sample.encode sample.py_repr sample.agent_run
             sample.hmac sample.int_conv sample.SECRET_KEY sample.alice_token sample.w1) sample.alice).
    reflexivity.
  - apply (proj2 (chat_requires_a_query sample.encode sample.py_repr sample.agent_run
             sample.hmac sample.int_conv sample.SECRET_KEY (jwt.Garbage "abc") sample.w1)).
    reflexivity.
Defined.

Lemma chat_on_filled_memory_witness :
  exists snippet,
    snippet ∈ ["Visit the Louvre."]
    /\ fst (chat sample.encode sample.py_repr sample.agent_run sample.hmac
              sample.int_conv sample.SECRET_KEY (ChatQuery.mk "weather in Paris") sample.alice_token
              sample.w1)
       = Return (ChatResponse.mk "Pack an umbrella.")
    /\ texts (memory (snd (chat sample.encode sample.py_repr sample.agent_run sample.hmac
                             sample.int_conv sample.SECRET_KEY (ChatQuery.mk "weather in Paris")
                             sample.alice_token sample.w1)))
       = ["Visit the Louvre."; "Pack an umbrella."].
Proof.
  destruct (chat_on_filled_memory sample.encode sample.py_repr sample.agent_run sample.hmac
              sample.int_conv sample.SECRET_KEY 2 [Add "Visit the Louvre."] sample.alice_token sample.w1
              sample.alice (ChatQuery.mk "weather in Paris"))
    as (snippet & Hin & Hret & Htexts & _).
  - reflexivity.
  - reflexivity.
  - discriminate.
  - reflexivity.
  - discriminate.
  - exists snippet. split; [exact Hin |]. split; [exact Hret | exact Htexts].
Defined.

Lemma emails_stay_unique_witness :
  emails_unique (snd (signup sample.hashpw sample.gen_id
                        (UserSignup.mk "c@x.com" "pw3" (Some "C")) sample.w0))
  /\ emails_unique (snd (update_profile sample.py_repr sample.hmac sample.int_conv sample.SECRET_KEY
                           (UserProfile.mk None "a@x.com" (Some "Alice") [])
                           sample.alice_token sample.w0)).
Proof.
  apply (emails_stay_unique sample.py_repr sample.hashpw sample.hmac sample.int_conv sample.SECRET_KEY
           sample.gen_id sample.w0).
  unfold emails_unique. simpl. apply NoDup_cons. split.
  - intros Hin. apply list_elem_of_singleton in Hin. discriminate.
  - apply NoDup_singleton.
Defined.
